(** * LicenseDb: obligations API, optional JSON fields and the audit trail

    A shallow embedding of
    - [pkg/models]: [OptionalNullableData], [OptionalData] and [NullString]
      with their JSON (un)marshalling methods, and
    - [pkg/api/obligations.go]: the handlers [CreateObligation],
      [UpdateObligation] and [DeleteObligation],
    together with the properties of the specification that concern them.

    Conventions.
    - A Go [string] is a Rocq [string] (a sequence of bytes); [len] is
      [String.length].
    - A method with a pointer receiver that returns [error] is a function
      from the receiver to the updated receiver and an optional error.
    - A pointer that may be [nil] is an [option].
    - The bytes handed to [UnmarshalJSON] are represented by the JSON value
      they spell; the empty byte slice is [None].
    - The storage layer (gorm) is a record of tables; a table is the list of
      its rows in primary-key order. *)

From Stdlib Require Import ZArith String Ascii Bool List Lia.
From stdpp Require Import base option list gmap strings fin_maps.
Import ListNotations.

Local Open Scope Z_scope.
Local Open Scope string_scope.

(** ** encoding/json: values, errors and decoding into a Go type *)

Module json.

#[warnings="-register-all"]
Inductive value : Type :=
| Null
| Bool (b : bool)
| Number (n : Z)
| String (s : string)
| Array (elems : list value)
| Object (members : list (string * value)).

(** [json.RawMessage]: the text of one JSON value, or no bytes at all. *)
Definition RawMessage : Type := option value.

(** [len(data) != 0]: the text of a JSON value has at least one byte. *)
Definition nonempty (data : RawMessage) : bool :=
  match data with
  | None => false
  | Some _ => true
  end.

Inductive error : Type :=
| SyntaxError (msg : string)
| UnmarshalTypeError (found : string) (wanted : string)
| errors_New (msg : string).

Definition kind (j : value) : string :=
  match j with
  | Null => "null"
  | Bool _ => "bool"
  | Number _ => "number"
  | String _ => "string"
  | Array _ => "array"
  | Object _ => "object"
  end.

(** What [json.Unmarshal] does with a non-null value for a destination of
    type [T], and the zero value of [T]. *)
Class Decodable (T : Type) : Type := {
  zero : T;
  decode : value -> error + T
}.

#[export] Instance Decodable_string : Decodable string := {|
  zero := "";
  decode j :=
    match j with
    | String s => inr s
    | Null => inr ""
    | _ => inl (UnmarshalTypeError (kind j) "string")
    end
|}.

#[export] Instance Decodable_bool : Decodable bool := {|
  zero := false;
  decode j :=
    match j with
    | Bool b => inr b
    | Null => inr false
    | _ => inl (UnmarshalTypeError (kind j) "bool")
    end
|}.

(** [var x *T; err := json.Unmarshal(data, &x)]: JSON null leaves the
    pointer nil, any other value is decoded into a fresh [T]. *)
Definition Unmarshal_ptr {T : Type} `{Decodable T}
    (data : RawMessage) : error + option T :=
  match data with
  | None => inl (SyntaxError "unexpected end of JSON input")
  | Some Null => inr None
  | Some j =>
      match decode j with
      | inl e => inl e
      | inr x => inr (Some x)
      end
  end.


(** Decoding a JSON object into a struct, seen from one field whose type
    implements [json.Unmarshaler]. The decoder matches the key of a member
    to the field ([is_field]: the name in the struct tag, exactly or up to
    case), visits the members in document order, calls the method on the
    field for each member that addresses it, leaves the field alone for
    the other members, and stops at the first error. *)
Fixpoint decode_member {V : Type}
    (UnmarshalJSON : V -> RawMessage -> V * option error)
    (is_field : string -> bool) (members : list (string * value)) (v : V)
    : V * option error :=
  match members with
  | [] => (v, None)
  | (k, j) :: rest =>
      if is_field k then
        match UnmarshalJSON v (Some j) with
        | (v', None) => decode_member UnmarshalJSON is_field rest v'
        | (v', Some e) => (v', Some e)
        end
      else decode_member UnmarshalJSON is_field rest v
  end.

(** The values of the members of the document that address the field. *)
Definition occurrences (is_field : string -> bool)
    (members : list (string * value)) : list value :=
  map snd (List.filter (fun kv => is_field (fst kv)) members).

End json.

(** ** pkg/models *)

Module models.

Import json.

(** *** OptionalNullableData *)
Module OptionalNullableData.
Section WithT.
Context {T : Type} `{Decodable T}.

Record t : Type := mk {
  IsNull : bool;
  IsNotUndefined : bool;
  rawJson : RawMessage;
  Value : T
}.

Definition zero_value : t :=
  {| IsNull := false; IsNotUndefined := false;
     rawJson := None; Value := zero |}.

Definition set_rawJson (v : t) (r : RawMessage) : t :=
  {| IsNull := IsNull v; IsNotUndefined := IsNotUndefined v;
     rawJson := r; Value := Value v |}.
Definition set_IsNotUndefined (v : t) (b : bool) : t :=
  {| IsNull := IsNull v; IsNotUndefined := b;
     rawJson := rawJson v; Value := Value v |}.
Definition set_IsNull (v : t) (b : bool) : t :=
  {| IsNull := b; IsNotUndefined := IsNotUndefined v;
     rawJson := rawJson v; Value := Value v |}.
Definition set_Value (v : t) (x : T) : t :=
  {| IsNull := IsNull v; IsNotUndefined := IsNotUndefined v;
     rawJson := rawJson v; Value := x |}.

Definition UnmarshalJSON (v : t) (data : RawMessage)
    : t * option error :=
  let v := set_rawJson v data in
  if nonempty (rawJson v) then
    let v := set_IsNotUndefined v true in
    match Unmarshal_ptr data with
    | inl err => (v, Some err)
    | inr None => (set_IsNull v true, None)
    | inr (Some x) => (set_Value v x, None)
    end
  else (v, None).

(** The three states, as the handlers read them: [IsNotUndefined]
    first, then [IsNull], then [Value]. *)
Inductive state : Type :=
| Undefined
| IsNullState
| Present (x : T).

Definition state_of (v : t) : state :=
  if negb (IsNotUndefined v) then Undefined
  else if IsNull v then IsNullState
  else Present (Value v).

(** Decoding a field of a document into a fresh wrapper. *)
Definition decode_field (is_field : string -> bool)
    (members : list (string * value)) : t * option error :=
  decode_member UnmarshalJSON is_field members zero_value.
End WithT.
Arguments t T : clear implicits.
Arguments state T : clear implicits.
End OptionalNullableData.

(** *** OptionalData *)
Module OptionalData.
Section WithT.
Context {T : Type} `{Decodable T}.

Record t : Type := mk {
  IsNotUndefined : bool;
  rawJson : RawMessage;
  Value : T
}.

Definition zero_value : t :=
  {| IsNotUndefined := false; rawJson := None; Value := zero |}.

Definition set_rawJson (v : t) (r : RawMessage) : t :=
  {| IsNotUndefined := IsNotUndefined v; rawJson := r;
     Value := Value v |}.
Definition set_IsNotUndefined (v : t) (b : bool) : t :=
  {| IsNotUndefined := b; rawJson := rawJson v; Value := Value v |}.
Definition set_Value (v : t) (x : T) : t :=
  {| IsNotUndefined := IsNotUndefined v; rawJson := rawJson v;
     Value := x |}.

Definition UnmarshalJSON (v : t) (data : RawMessage)
    : t * option error :=
  let v := set_rawJson v data in
  if nonempty (rawJson v) then
    match Unmarshal_ptr data with
    | inl err => (v, Some err)
    | inr None => (v, Some (errors_New "field value cannot be null"))
    | inr (Some x) =>
        let v := set_Value v x in
        (set_IsNotUndefined v true, None)
    end
  else (v, None).

Inductive state : Type :=
| Undefined
| Present (x : T).

Definition state_of (v : t) : state :=
  if negb (IsNotUndefined v) then Undefined else Present (Value v).

Definition decode_field (is_field : string -> bool)
    (members : list (string * value)) : t * option error :=
  decode_member UnmarshalJSON is_field members zero_value.
End WithT.
Arguments t T : clear implicits.
Arguments state T : clear implicits.
End OptionalData.

(** *** NullString, a wrapper over [sql.NullString] *)
Module NullString.
Record t : Type := mk {
  String : string;
  Valid : bool
}.

Definition zero_value : t := {| String := ""; Valid := false |}.

Definition set_Valid (v : t) (b : bool) : t :=
  {| String := String v; Valid := b |}.
Definition set_String (v : t) (s : string) : t :=
  {| String := s; Valid := Valid v |}.

(** Go's [==] on the struct: both fields. *)
Definition eqb (a b : t) : bool :=
  String.eqb (String a) (String b) && Bool.eqb (Valid a) (Valid b).


Definition UnmarshalJSON (v : t) (data : RawMessage)
    : t * option error :=
  match Unmarshal_ptr (T := string) data with
  | inl err => (v, Some err)
  | inr x =>
      match x with
      | None => (set_Valid v false, None)
      | Some s =>
          if String.eqb s "" then (set_Valid v false, None)
          else
            let v := set_Valid v true in
            (set_String v s, None)
      end
  end.
End NullString.

(** *** The rows of the tables and the request and response bodies

    The struct declarations of [pkg/models] are not among the sources. Each
    record below has the fields the handlers read and write, at the types
    the handlers use them at. *)

(** Modelled from the spec: the struct [models.Obligation] (identity,
    topic, type, text, classification, nullable comment, the three flags
    and the digest of the text). *)
Module Obligation.
Record t : Type := mk {
  Id : Z;
  Topic : string;
  Type_ : string;
  Text : string;
  Classification : string;
  Modifications : bool;
  Comment : NullString.t;
  Active : bool;
  TextUpdatable : bool;
  Md5 : string
}.

Definition zero_value : t :=
  {| Id := 0; Topic := ""; Type_ := ""; Text := ""; Classification := "";
     Modifications := false; Comment := NullString.zero_value;
     Active := false; TextUpdatable := false; Md5 := "" |}.

Definition set_Id (o : t) (i : Z) : t :=
  {| Id := i; Topic := Topic o; Type_ := Type_ o; Text := Text o;
     Classification := Classification o; Modifications := Modifications o;
     Comment := Comment o; Active := Active o;
     TextUpdatable := TextUpdatable o; Md5 := Md5 o |}.

Definition set_Active (o : t) (b : bool) : t :=
  {| Id := Id o; Topic := Topic o; Type_ := Type_ o; Text := Text o;
     Classification := Classification o; Modifications := Modifications o;
     Comment := Comment o; Active := b;
     TextUpdatable := TextUpdatable o; Md5 := Md5 o |}.
End Obligation.

(** Modelled from the spec: the struct [models.User], as far as the update
    handler reads it. *)
Module User.
Record t : Type := mk {
  Id : Z;
  Username : string
}.
End User.

(** Modelled from the spec: the struct [models.LicenseDB], as far as the
    create handler reads it. *)
Module LicenseDB.
Record t : Type := mk {
  Id : Z;
  Shortname : string
}.

Definition zero_value : t := {| Id := 0; Shortname := "" |}.
End LicenseDB.

(** Modelled from the spec: the struct [models.ObligationMap], the join
    record of an obligation and a license. *)
Module ObligationMap.
Record t : Type := mk {
  ObligationPk : Z;
  RfPk : Z
}.
End ObligationMap.

(** Modelled from the spec: the struct [models.ChangeLog] (field name,
    prior value, new value; a nil pointer is [None]). *)
Module ChangeLog.
Record t : Type := mk {
  Field : string;
  OldValue : option string;
  UpdatedValue : option string
}.
End ChangeLog.

(** Modelled from the spec: the struct [models.Audit] (user, subject,
    subject type, timestamp and the ordered change log). *)
Module Audit.
Record t : Type := mk {
  UserId : Z;
  TypeId : Z;
  Timestamp : Z;
  Type_ : string;
  ChangeLogs : list ChangeLog.t
}.
End Audit.

(** Modelled from the spec: the struct of the POST body. *)
Module ObligationPOSTRequestJSONSchema.
Record t : Type := mk {
  Topic : string;
  Type_ : string;
  Text : string;
  Classification : string;
  Modifications : bool;
  Comment : NullString.t;
  Active : bool;
  Shortnames : list string
}.
End ObligationPOSTRequestJSONSchema.

(** Modelled from the spec: the struct of the PATCH body; every field is
    optional, the comment is optional and nullable. *)
Module ObligationPATCHRequestJSONSchema.
Record t : Type := mk {
  Type_ : OptionalData.t string;
  Text : OptionalData.t string;
  Classification : OptionalData.t string;
  Modifications : OptionalData.t bool;
  Comment : OptionalNullableData.t string;
  Active : OptionalData.t bool;
  TextUpdatable : OptionalData.t bool
}.
End ObligationPATCHRequestJSONSchema.

(** Modelled from the spec: the struct [models.LicenseError], without the
    request path and the timestamp. *)
Module LicenseError.
Record t : Type := mk {
  Status : Z;
  Message : string;
  Error : string
}.
End LicenseError.

(** Modelled from the spec: the struct [models.ObligationResponse]. *)
Module ObligationResponse.
Record t : Type := mk {
  Status : Z;
  Data : list Obligation.t;
  ResourceCount : Z
}.
End ObligationResponse.

End models.

(** ** The Go standard library, as far as the handlers use it *)

Module golang.

(** The builtin [append(s, x)]. *)
Definition append {A : Type} (s : list A) (x : A) : list A := (s ++ [x])%list.

(** [strconv.FormatBool]. *)
Definition FormatBool (b : bool) : string :=
  if b then "true" else "false".

(** [s[lo:hi]] on a string: a run-time panic unless
    [0 <= lo <= hi <= len(s)]; [None] is the panic. *)
Definition slice (s : string) (lo hi : nat) : option string :=
  if (lo <=? hi)%nat && (hi <=? String.length s)%nat
  then Some (String.substring lo (hi - lo) s)
  else None.

(** [hex.EncodeToString(md5.Sum([]byte(s))[:])]: the digest is a function of
    the text; nothing else about it is used. *)
Class MD5 : Type := md5_hex : string -> string.

Definition StatusOK : Z := 200.
Definition StatusCreated : Z := 201.
Definition StatusNoContent : Z := 204.
Definition StatusBadRequest : Z := 400.
Definition StatusNotFound : Z := 404.
Definition StatusConflict : Z := 409.
Definition StatusInternalServerError : Z := 500.

(** [err.Error()] of a decoding error. *)
Definition Error (e : json.error) : string :=
  match e with
  | json.SyntaxError msg => msg
  | json.UnmarshalTypeError found wanted =>
      "json: cannot unmarshal " ++ found ++ " into Go value of type "
        ++ wanted
  | json.errors_New msg => msg
  end.

End golang.

(** ** The storage layer (gorm over a relational database)

    gorm and the database are libraries outside the repository. Each table
    is the list of its rows in primary-key order; a struct condition
    ignores the fields that hold their zero value (gorm queries with the
    non-zero fields only); [First] returns the first matching row in
    primary-key order or fails with "record not found"; [Updates] with a
    map is a partial update of the row of the model's primary key, and
    does nothing at all when the map sets no column. *)

Module db.

Import models golang.

Record DB : Type := mkDB {
  obligations : list Obligation.t;
  users : list User.t;
  licenses : list LicenseDB.t;
  obligation_maps : list ObligationMap.t;
  audits : list Audit.t
}.

Definition set_obligations (tx : DB) (rows : list Obligation.t) : DB :=
  {| obligations := rows; users := users tx; licenses := licenses tx;
     obligation_maps := obligation_maps tx; audits := audits tx |}.

Definition set_obligation_maps (tx : DB) (rows : list ObligationMap.t)
    : DB :=
  {| obligations := obligations tx; users := users tx;
     licenses := licenses tx; obligation_maps := rows;
     audits := audits tx |}.

Definition set_audits (tx : DB) (rows : list Audit.t) : DB :=
  {| obligations := obligations tx; users := users tx;
     licenses := licenses tx; obligation_maps := obligation_maps tx;
     audits := rows |}.

Definition ErrRecordNotFound : string := "record not found".
Definition ErrMissingWhereClause : string := "WHERE conditions required".
Definition ErrDuplicatedKey : string := "duplicated key not allowed".

(** A string field of a struct condition: skipped when zero. *)
Definition cond_string (want have : string) : bool :=
  if String.eqb want "" then true else String.eqb have want.

(** [Where(models.Obligation{Topic: tp}).First(&obligation)]. *)
Definition First_Obligation (tx : DB) (tp : string)
    : option Obligation.t :=
  List.find (fun o => cond_string tp (Obligation.Topic o)) (obligations tx).

(** [Where(models.User{Username: username}).First(&user)]. *)
Definition First_User (tx : DB) (username : string) : option User.t :=
  List.find (fun u => cond_string username (User.Username u)) (users tx).

(** [Where(models.LicenseDB{Shortname: i}).Find(&license)]: the destination
    keeps its zero value when no row matches. *)
Definition Find_License (tx : DB) (shortname : string) : LicenseDB.t :=
  match List.find (fun l => cond_string shortname (LicenseDB.Shortname l))
          (licenses tx) with
  | Some l => l
  | None => LicenseDB.zero_value
  end.

(** The values a [map[string]interface{}] of column updates holds. *)
Inductive column_value : Type :=
| VString (s : string)
| VBool (b : bool)
| VNullString (s : NullString.t).

Definition string_column (m : gmap string column_value) (col : string)
    (old : string) : string :=
  match m !! col with
  | Some (VString s) => s
  | _ => old
  end.

Definition bool_column (m : gmap string column_value) (col : string)
    (old : bool) : bool :=
  match m !! col with
  | Some (VBool b) => b
  | _ => old
  end.

Definition nullstring_column (m : gmap string column_value) (col : string)
    (old : NullString.t) : NullString.t :=
  match m !! col with
  | Some (VNullString s) => s
  | _ => old
  end.

(** [SET col = value] for every column of the map. *)
Definition assign (m : gmap string column_value) (o : Obligation.t)
    : Obligation.t :=
  {| Obligation.Id := Obligation.Id o;
     Obligation.Topic := string_column m "topic" (Obligation.Topic o);
     Obligation.Type_ := string_column m "type" (Obligation.Type_ o);
     Obligation.Text := string_column m "text" (Obligation.Text o);
     Obligation.Classification :=
       string_column m "classification" (Obligation.Classification o);
     Obligation.Modifications :=
       bool_column m "modifications" (Obligation.Modifications o);
     Obligation.Comment :=
       nullstring_column m "comment" (Obligation.Comment o);
     Obligation.Active := bool_column m "active" (Obligation.Active o);
     Obligation.TextUpdatable :=
       bool_column m "text_updatable" (Obligation.TextUpdatable o);
     Obligation.Md5 := string_column m "md5" (Obligation.Md5 o) |}.

Definition has_Id (i : Z) (o : Obligation.t) : bool :=
  Z.eqb (Obligation.Id o) i.

(** [tx.Model(&dest).Clauses(clause.Returning{}).Updates(m)]. With no
    column to set, gorm's update callback builds no statement: no query
    runs, no error is raised and [dest] stays as the caller prepared it.
    Otherwise the rows with the primary key of [dest] are updated and the
    updated row is read back into [dest]; without a primary key the
    statement has no WHERE clause and is refused. *)
Definition Updates_Returning (tx : DB) (dest : Obligation.t)
    (m : gmap string column_value) : DB * Obligation.t * option string :=
  if Nat.eqb (size m) 0 then (tx, dest, None)
  else if Z.eqb (Obligation.Id dest) 0
  then (tx, dest, Some ErrMissingWhereClause)
  else
    let rows :=
      map (fun o => if has_Id (Obligation.Id dest) o then assign m o else o)
          (obligations tx) in
    let dest :=
      match List.find (has_Id (Obligation.Id dest)) rows with
      | Some o => o
      | None => assign m dest
      end in
    (set_obligations tx rows, dest, None).

(** [tx.Create(&audit)]. *)
Definition Create_Audit (tx : DB) (audit : Audit.t) : DB * option string :=
  (set_audits tx (append (audits tx) audit), None).

(** The next value of the primary-key sequence. *)
Definition next_Id (rows : list Obligation.t) : Z :=
  1 + fold_right Z.max 0 (map Obligation.Id rows).

(** Modelled from the spec: the unique keys of the obligations table (the
    topic is unique, the digest is unique); [Create(&obligation)] is
    refused when either is taken. *)
Definition Create_Obligation (tx : DB) (dest : Obligation.t)
    : DB * Obligation.t * Z * option string :=
  if existsb (fun o =>
                String.eqb (Obligation.Topic o) (Obligation.Topic dest)
                || String.eqb (Obligation.Md5 o) (Obligation.Md5 dest))
             (obligations tx)
  then (tx, dest, 0, Some ErrDuplicatedKey)
  else
    let dest := Obligation.set_Id dest (next_Id (obligations tx)) in
    (set_obligations tx (append (obligations tx) dest), dest, 1, None).

(** [Where(&Obligation{Topic: topic}).Or(&Obligation{Md5: md5})]. *)
Definition where_Topic_or_Md5 (topic md5 : string) (o : Obligation.t)
    : bool :=
  match String.eqb topic "", String.eqb md5 "" with
  | false, false =>
      String.eqb (Obligation.Topic o) topic
      || String.eqb (Obligation.Md5 o) md5
  | true, false => String.eqb (Obligation.Md5 o) md5
  | false, true => String.eqb (Obligation.Topic o) topic
  | true, true => true
  end.

(** [Where(..).Or(..).FirstOrCreate(&dest)]: the row found is read into
    [dest] and no row is affected; otherwise [dest] is created. The result
    is the database, [dest], [RowsAffected] and [Error]. *)
Definition FirstOrCreate (tx : DB) (dest : Obligation.t)
    : DB * Obligation.t * Z * option string :=
  match List.find
          (where_Topic_or_Md5 (Obligation.Topic dest) (Obligation.Md5 dest))
          (obligations tx) with
  | Some found => (tx, found, 0, None)
  | None => Create_Obligation tx dest
  end.

(** Modelled from the spec: [Create(&obmap)] is a silent no-op when the
    license does not exist (the link needs an existing license, and the
    handler ignores the error). *)
Definition Create_ObligationMap (tx : DB) (obmap : ObligationMap.t) : DB :=
  if existsb (fun l => Z.eqb (LicenseDB.Id l) (ObligationMap.RfPk obmap))
             (licenses tx)
  then set_obligation_maps tx (append (obligation_maps tx) obmap)
  else tx.

(** [Where(models.Obligation{Topic: tp}).Save(&obligation)]: every column of
    the row with the primary key of [obligation] (and the topic [tp]) is
    written; when no row is affected the row is inserted, or overwritten on
    a primary-key conflict. *)
Definition Save (tx : DB) (tp : string) (obligation : Obligation.t) : DB :=
  let hit o :=
    has_Id (Obligation.Id obligation) o
    && cond_string tp (Obligation.Topic o) in
  if existsb hit (obligations tx) then
    set_obligations tx
      (map (fun o => if hit o then obligation else o) (obligations tx))
  else if existsb (has_Id (Obligation.Id obligation)) (obligations tx) then
    set_obligations tx
      (map (fun o => if has_Id (Obligation.Id obligation) o
                     then obligation else o) (obligations tx))
  else set_obligations tx (append (obligations tx) obligation).

(** [DB.Transaction(fc)]: commit when [fc] returns nil, roll back
    otherwise. The HTTP response written by [fc] is not undone. *)
Definition Transaction {R : Type} (d : DB)
    (fc : DB -> DB * R * option string) : DB * R :=
  match fc d with
  | (tx, r, None) => (tx, r)
  | (_, r, Some _) => (d, r)
  end.

End db.

(** ** pkg/api/obligations.go *)

Module api.

Import models golang db.

(** What a handler leaves in the gin context: [c.JSON(status, body)] or
    [c.Status(code)]; a run-time panic leaves no response of the handler. *)
Inductive Response : Type :=
| JSON_LicenseError (status : Z) (er : LicenseError.t)
| JSON_ObligationResponse (status : Z) (res : ObligationResponse.t)
| Status (code : Z)
| Panic (msg : string).

Definition status_of (r : Response) : option Z :=
  match r with
  | JSON_LicenseError status _ => Some status
  | JSON_ObligationResponse status _ => Some status
  | Status code => Some code
  | Panic _ => None
  end.

Definition bad_request (message : string) : Response :=
  JSON_LicenseError StatusBadRequest
    {| LicenseError.Status := StatusBadRequest;
       LicenseError.Message := message;
       LicenseError.Error := "invalid request" |}.

Definition not_found (tp : string) : Response :=
  JSON_LicenseError StatusNotFound
    {| LicenseError.Status := StatusNotFound;
       LicenseError.Message :=
         "obligation with topic '" ++ tp ++ "' not found";
       LicenseError.Error := ErrRecordNotFound |}.

Definition invalid_json_body (err : json.error) : Response :=
  JSON_LicenseError StatusBadRequest
    {| LicenseError.Status := StatusBadRequest;
       LicenseError.Message := "invalid json body";
       LicenseError.Error := Error err |}.

Definition failed_to_update (err : string) : Response :=
  JSON_LicenseError StatusInternalServerError
    {| LicenseError.Status := StatusInternalServerError;
       LicenseError.Message := "Failed to update license";
       LicenseError.Error := err |}.

Definition ok_response (status : Z) (obligation : Obligation.t) : Response :=
  JSON_ObligationResponse status
    {| ObligationResponse.Status := status;
       ObligationResponse.Data := [obligation];
       ObligationResponse.ResourceCount := 1 |}.

Section Handlers.
Context {md5 : MD5}.

(** *** CreateObligation *)

Definition create_links (d : DB) (obligation : Obligation.t)
    (shortnames : list string) : DB :=
  fold_left
    (fun d i =>
       let license := Find_License d i in
       let obmap :=
         {| ObligationMap.ObligationPk := Obligation.Id obligation;
            ObligationMap.RfPk := LicenseDB.Id license |} in
       Create_ObligationMap d obmap)
    shortnames d.

Definition CreateObligation (d : DB)
    (body : json.error + ObligationPOSTRequestJSONSchema.t)
    : DB * Response :=
  match body with
  | inl err => (d, invalid_json_body err)
  | inr input =>
      let s := ObligationPOSTRequestJSONSchema.Text input in
      let md5hash := md5_hex s in
      let obligation :=
        {| Obligation.Id := 0;
           Obligation.Md5 := md5hash;
           Obligation.Type_ := ObligationPOSTRequestJSONSchema.Type_ input;
           Obligation.Topic := ObligationPOSTRequestJSONSchema.Topic input;
           Obligation.Text := ObligationPOSTRequestJSONSchema.Text input;
           Obligation.Classification :=
             ObligationPOSTRequestJSONSchema.Classification input;
           Obligation.Comment :=
             ObligationPOSTRequestJSONSchema.Comment input;
           Obligation.Modifications :=
             ObligationPOSTRequestJSONSchema.Modifications input;
           Obligation.Active := ObligationPOSTRequestJSONSchema.Active input;
           Obligation.TextUpdatable := false |} in
      let '(d, obligation, RowsAffected, result_Error) :=
        FirstOrCreate d obligation in
      if Z.eqb RowsAffected 0 then
        match slice (Obligation.Text obligation) 0 10 with
        | None => (d, Panic "runtime error: slice bounds out of range")
        | Some prefix =>
            (d, JSON_LicenseError StatusConflict
                  {| LicenseError.Status := StatusConflict;
                     LicenseError.Message :=
                       "can not create obligation with same topic or text";
                     LicenseError.Error :=
                       "Error: Obligation with topic '"
                         ++ Obligation.Topic obligation ++ "' or Text '"
                         ++ prefix ++ "'... already exists" |})
        end
      else
        match result_Error with
        | Some err =>
            (d, JSON_LicenseError StatusInternalServerError
                  {| LicenseError.Status := StatusInternalServerError;
                     LicenseError.Message := "Failed to create obligation";
                     LicenseError.Error := err |})
        | None =>
            let d :=
              create_links d obligation
                (ObligationPOSTRequestJSONSchema.Shortnames input) in
            (d, ok_response StatusCreated obligation)
        end
  end.

(** *** UpdateObligation *)

(** Lines 265-333: the text guard and the sparse map of column updates; the
    left result is the response of the failed validation. *)
Definition newObligationMap_of (oldObligation : Obligation.t)
    (updates : ObligationPATCHRequestJSONSchema.t)
    : Response + gmap string column_value :=
  let Text := ObligationPATCHRequestJSONSchema.Text updates in
  let Type_ := ObligationPATCHRequestJSONSchema.Type_ updates in
  let Classification :=
    ObligationPATCHRequestJSONSchema.Classification updates in
  let Modifications :=
    ObligationPATCHRequestJSONSchema.Modifications updates in
  let Comment := ObligationPATCHRequestJSONSchema.Comment updates in
  let Active := ObligationPATCHRequestJSONSchema.Active updates in
  let TextUpdatable :=
    ObligationPATCHRequestJSONSchema.TextUpdatable updates in
  let newObligationMap : gmap string column_value := ∅ in
  if negb (String.eqb (OptionalData.Value Text) "")
     && negb (Obligation.TextUpdatable oldObligation)
     && negb (String.eqb (OptionalData.Value Text)
                         (Obligation.Text oldObligation))
  then inl (bad_request "Can not update obligation text")
  else
  let newObligationMap :=
    if Obligation.TextUpdatable oldObligation
       && (negb (String.eqb (OptionalData.Value Text) "")
           && negb (String.eqb (OptionalData.Value Text)
                               (Obligation.Text oldObligation)))
    then
      let updatedMd5hash := md5_hex (OptionalData.Value Text) in
      <["text" := VString (OptionalData.Value Text)]>
        (<["md5" := VString updatedMd5hash]> newObligationMap)
    else newObligationMap in
  if OptionalData.IsNotUndefined Type_
     && String.eqb (OptionalData.Value Type_) ""
  then inl (bad_request "Type cannot be an empty string")
  else
  let newObligationMap :=
    if OptionalData.IsNotUndefined Type_
    then <["type" := VString (OptionalData.Value Type_)]> newObligationMap
    else newObligationMap in
  if OptionalData.IsNotUndefined Classification
     && String.eqb (OptionalData.Value Classification) ""
  then inl (bad_request "Classification cannot be an empty string")
  else
  let newObligationMap :=
    if OptionalData.IsNotUndefined Classification
    then <["classification" :=
             VString (OptionalData.Value Classification)]> newObligationMap
    else newObligationMap in
  let newObligationMap :=
    if OptionalData.IsNotUndefined Modifications
    then <["modifications" :=
             VBool (OptionalData.Value Modifications)]> newObligationMap
    else newObligationMap in
  let newObligationMap :=
    if OptionalNullableData.IsNotUndefined Comment
    then
      let comment := NullString.zero_value in
      let comment :=
        if negb (OptionalNullableData.IsNull Comment)
        then
          let comment := NullString.set_Valid comment true in
          NullString.set_String comment (OptionalNullableData.Value Comment)
        else comment in
      <["comment" := VNullString comment]> newObligationMap
    else newObligationMap in
  let newObligationMap :=
    if OptionalData.IsNotUndefined Active
    then <["active" := VBool (OptionalData.Value Active)]> newObligationMap
    else newObligationMap in
  let newObligationMap :=
    if OptionalData.IsNotUndefined TextUpdatable
    then <["text_updatable" :=
             VBool (OptionalData.Value TextUpdatable)]> newObligationMap
    else newObligationMap in
  inr newObligationMap.

(** Lines 362-434: the change log of an update. *)
Definition changes_of (oldObligation newObligation : Obligation.t)
    : list ChangeLog.t :=
  let changes : list ChangeLog.t := [] in
  let changes :=
    if negb (String.eqb (Obligation.Topic oldObligation)
                        (Obligation.Topic newObligation))
    then append changes
      {| ChangeLog.Field := "Topic";
          ChangeLog.OldValue := Some (Obligation.Topic oldObligation);
          ChangeLog.UpdatedValue := Some (Obligation.Topic newObligation) |}
    else changes in
  let changes :=
    if negb (String.eqb (Obligation.Type_ oldObligation)
                        (Obligation.Type_ newObligation))
    then append changes
      {| ChangeLog.Field := "Type";
          ChangeLog.OldValue := Some (Obligation.Type_ oldObligation);
          ChangeLog.UpdatedValue := Some (Obligation.Type_ newObligation) |}
    else changes in
  let changes :=
    if negb (String.eqb (Obligation.Text oldObligation)
                        (Obligation.Text newObligation))
    then append changes
      {| ChangeLog.Field := "Text";
          ChangeLog.OldValue := Some (Obligation.Text oldObligation);
          ChangeLog.UpdatedValue := Some (Obligation.Text newObligation) |}
    else changes in
  let changes :=
    if negb (String.eqb (Obligation.Classification oldObligation)
                        (Obligation.Classification newObligation))
    then
      let oldVal := FormatBool (Obligation.Modifications oldObligation) in
      let newVal := FormatBool (Obligation.Modifications newObligation) in
      append changes
      {| ChangeLog.Field := "Classification";
          ChangeLog.OldValue := Some oldVal;
          ChangeLog.UpdatedValue := Some newVal |}
    else changes in
  let changes :=
    if negb (Bool.eqb (Obligation.Modifications oldObligation)
                      (Obligation.Modifications newObligation))
    then
      let oldVal := FormatBool (Obligation.Modifications oldObligation) in
      let newVal := FormatBool (Obligation.Modifications newObligation) in
      append changes
      {| ChangeLog.Field := "Modifications";
          ChangeLog.OldValue := Some oldVal;
          ChangeLog.UpdatedValue := Some newVal |}
    else changes in
  let changes :=
    if negb (NullString.eqb (Obligation.Comment oldObligation)
                            (Obligation.Comment newObligation))
    then
      let oldVal :=
        if NullString.Valid (Obligation.Comment oldObligation)
        then Some (NullString.String (Obligation.Comment oldObligation))
        else None in
      let newVal :=
        if NullString.Valid (Obligation.Comment newObligation)
        then Some (NullString.String (Obligation.Comment newObligation))
        else None in
      append changes
      {| ChangeLog.Field := "Comment";
          ChangeLog.OldValue := oldVal;
          ChangeLog.UpdatedValue := newVal |}
    else changes in
  let changes :=
    if negb (Bool.eqb (Obligation.Active oldObligation)
                      (Obligation.Active newObligation))
    then
      let oldVal := FormatBool (Obligation.Active oldObligation) in
      let newVal := FormatBool (Obligation.Active newObligation) in
      append changes
      {| ChangeLog.Field := "Active";
          ChangeLog.OldValue := Some oldVal;
          ChangeLog.UpdatedValue := Some newVal |}
    else changes in
  let changes :=
    if negb (Bool.eqb (Obligation.TextUpdatable oldObligation)
                      (Obligation.TextUpdatable newObligation))
    then
      let oldVal := FormatBool (Obligation.TextUpdatable oldObligation) in
      let newVal := FormatBool (Obligation.TextUpdatable newObligation) in
      append changes
      {| ChangeLog.Field := "TextUpdatable";
          ChangeLog.OldValue := Some oldVal;
          ChangeLog.UpdatedValue := Some newVal |}
    else changes in
  changes.

(** The function passed to [db.DB.Transaction]; [now] is [time.Now()]. *)
Definition UpdateObligation_tx (username tp : string)
    (body : json.error + ObligationPATCHRequestJSONSchema.t) (now : Z)
    (tx : DB) : DB * Response * option string :=
  match First_Obligation tx tp with
  | None => (tx, not_found tp, Some ErrRecordNotFound)
  | Some oldObligation =>
  match body with
  | inl err => (tx, invalid_json_body err, Some (Error err))
  | inr updates =>
  match newObligationMap_of oldObligation updates with
  | inl er => (tx, er, Some "invalid request")
  | inr newObligationMap =>
  let newObligation :=
    Obligation.set_Id Obligation.zero_value (Obligation.Id oldObligation) in
  match Updates_Returning tx newObligation newObligationMap with
  | (tx, _, Some err) => (tx, failed_to_update err, Some err)
  | (tx, newObligation, None) =>
  match First_User tx username with
  | None => (tx, failed_to_update ErrRecordNotFound, Some ErrRecordNotFound)
  | Some user =>
  let changes := changes_of oldObligation newObligation in
  if negb (Nat.eqb (length changes) 0) then
    let audit :=
      {| Audit.UserId := User.Id user;
         Audit.TypeId := Obligation.Id newObligation;
         Audit.Timestamp := now;
         Audit.Type_ := "Obligation";
         Audit.ChangeLogs := changes |} in
    match Create_Audit tx audit with
    | (tx, Some err) => (tx, failed_to_update err, Some err)
    | (tx, None) => (tx, ok_response StatusOK newObligation, None)
    end
  else (tx, ok_response StatusOK newObligation, None)
  end end end end end.

Definition UpdateObligation (d : DB) (username tp : string)
    (body : json.error + ObligationPATCHRequestJSONSchema.t) (now : Z)
    : DB * Response :=
  Transaction d (UpdateObligation_tx username tp body now).

(** *** DeleteObligation *)

Definition DeleteObligation (d : DB) (tp : string) : DB * Response :=
  match First_Obligation d tp with
  | None => (d, not_found tp)
  | Some obligation =>
      let obligation := Obligation.set_Active obligation false in
      let d := Save d tp obligation in
      (d, Status StatusNoContent)
  end.

End Handlers.

End api.

(** ** Vocabulary of the properties *)

Module props.

Import json models golang db api.

(** The fields the change log tracks, and the order the specification
    fixes for them. *)
Inductive tracked_field : Type :=
| FTopic
| FType
| FText
| FClassification
| FModifications
| FComment
| FActive
| FTextUpdatable.

Definition tracked_fields : list tracked_field :=
  [FTopic; FType; FText; FClassification; FModifications; FComment;
   FActive; FTextUpdatable].

Definition field_name (f : tracked_field) : string :=
  match f with
  | FTopic => "Topic"
  | FType => "Type"
  | FText => "Text"
  | FClassification => "Classification"
  | FModifications => "Modifications"
  | FComment => "Comment"
  | FActive => "Active"
  | FTextUpdatable => "TextUpdatable"
  end.

(** The field has different values in the two rows (the field's natural
    equality). *)
Definition differs (old new : Obligation.t) (f : tracked_field) : bool :=
  match f with
  | FTopic => negb (String.eqb (Obligation.Topic old) (Obligation.Topic new))
  | FType => negb (String.eqb (Obligation.Type_ old) (Obligation.Type_ new))
  | FText => negb (String.eqb (Obligation.Text old) (Obligation.Text new))
  | FClassification =>
      negb (String.eqb (Obligation.Classification old)
                       (Obligation.Classification new))
  | FModifications =>
      negb (Bool.eqb (Obligation.Modifications old)
                     (Obligation.Modifications new))
  | FComment =>
      negb (NullString.eqb (Obligation.Comment old) (Obligation.Comment new))
  | FActive => negb (Bool.eqb (Obligation.Active old) (Obligation.Active new))
  | FTextUpdatable =>
      negb (Bool.eqb (Obligation.TextUpdatable old)
                     (Obligation.TextUpdatable new))
  end.

(** How the specification renders the two values of a field in a log
    entry: a string field as the raw string, a nullable string as the raw
    string or absent, a boolean as "true" or "false". *)
Definition rendered (o : Obligation.t) (f : tracked_field) : option string :=
  match f with
  | FTopic => Some (Obligation.Topic o)
  | FType => Some (Obligation.Type_ o)
  | FText => Some (Obligation.Text o)
  | FClassification => Some (Obligation.Classification o)
  | FModifications => Some (FormatBool (Obligation.Modifications o))
  | FComment =>
      if NullString.Valid (Obligation.Comment o)
      then Some (NullString.String (Obligation.Comment o))
      else None
  | FActive => Some (FormatBool (Obligation.Active o))
  | FTextUpdatable => Some (FormatBool (Obligation.TextUpdatable o))
  end.

(** The condition of line 277: the text of the request replaces the stored
    one. *)
Definition text_accepted (old : Obligation.t)
    (updates : ObligationPATCHRequestJSONSchema.t) : bool :=
  let v :=
    OptionalData.Value (ObligationPATCHRequestJSONSchema.Text updates) in
  Obligation.TextUpdatable old
  && (negb (String.eqb v "") && negb (String.eqb v (Obligation.Text old))).

(** The [NullString] the handler stores for the comment of a request. *)
Definition comment_of (c : OptionalNullableData.t string) : NullString.t :=
  if OptionalNullableData.IsNull c then NullString.zero_value
  else {| NullString.String := OptionalNullableData.Value c;
          NullString.Valid := true |}.

(** The row that the column updates of a request make of the row [o]. *)
Definition patched {md5 : MD5} (old : Obligation.t)
    (updates : ObligationPATCHRequestJSONSchema.t) (o : Obligation.t)
    : Obligation.t :=
  let Text := ObligationPATCHRequestJSONSchema.Text updates in
  let Type_ := ObligationPATCHRequestJSONSchema.Type_ updates in
  let Classification :=
    ObligationPATCHRequestJSONSchema.Classification updates in
  let Modifications :=
    ObligationPATCHRequestJSONSchema.Modifications updates in
  let Comment := ObligationPATCHRequestJSONSchema.Comment updates in
  let Active := ObligationPATCHRequestJSONSchema.Active updates in
  let TextUpdatable :=
    ObligationPATCHRequestJSONSchema.TextUpdatable updates in
  {| Obligation.Id := Obligation.Id o;
     Obligation.Topic := Obligation.Topic o;
     Obligation.Type_ :=
       if OptionalData.IsNotUndefined Type_
       then OptionalData.Value Type_ else Obligation.Type_ o;
     Obligation.Text :=
       if text_accepted old updates
       then OptionalData.Value Text else Obligation.Text o;
     Obligation.Classification :=
       if OptionalData.IsNotUndefined Classification
       then OptionalData.Value Classification
       else Obligation.Classification o;
     Obligation.Modifications :=
       if OptionalData.IsNotUndefined Modifications
       then OptionalData.Value Modifications
       else Obligation.Modifications o;
     Obligation.Comment :=
       if OptionalNullableData.IsNotUndefined Comment
       then comment_of Comment else Obligation.Comment o;
     Obligation.Active :=
       if OptionalData.IsNotUndefined Active
       then OptionalData.Value Active else Obligation.Active o;
     Obligation.TextUpdatable :=
       if OptionalData.IsNotUndefined TextUpdatable
       then OptionalData.Value TextUpdatable
       else Obligation.TextUpdatable o;
     Obligation.Md5 :=
       if text_accepted old updates
       then md5_hex (OptionalData.Value Text) else Obligation.Md5 o |}.

(** The invariants of the obligations table that the storage layer keeps:
    the primary key is unique, and a comment stored as NULL is read back
    with the empty string. *)
Definition comment_as_stored (o : Obligation.t) : Prop :=
  NullString.Valid (Obligation.Comment o) = false ->
  NullString.String (Obligation.Comment o) = "".

Definition db_consistent (d : DB) : Prop :=
  NoDup (map Obligation.Id (obligations d))
  /\ Forall comment_as_stored (obligations d).

(** A request body that states every field of the row with the value the
    row has. *)
Definition same_as_current (old : Obligation.t)
    (updates : ObligationPATCHRequestJSONSchema.t) : Prop :=
  OptionalData.state_of (ObligationPATCHRequestJSONSchema.Type_ updates)
    = OptionalData.Present (Obligation.Type_ old)
  /\ OptionalData.state_of (ObligationPATCHRequestJSONSchema.Text updates)
     = OptionalData.Present (Obligation.Text old)
  /\ OptionalData.state_of
       (ObligationPATCHRequestJSONSchema.Classification updates)
     = OptionalData.Present (Obligation.Classification old)
  /\ OptionalData.state_of
       (ObligationPATCHRequestJSONSchema.Modifications updates)
     = OptionalData.Present (Obligation.Modifications old)
  /\ OptionalNullableData.state_of
       (ObligationPATCHRequestJSONSchema.Comment updates)
     = (if NullString.Valid (Obligation.Comment old)
        then OptionalNullableData.Present
               (NullString.String (Obligation.Comment old))
        else OptionalNullableData.IsNullState)
  /\ OptionalData.state_of (ObligationPATCHRequestJSONSchema.Active updates)
     = OptionalData.Present (Obligation.Active old)
  /\ OptionalData.state_of
       (ObligationPATCHRequestJSONSchema.TextUpdatable updates)
     = OptionalData.Present (Obligation.TextUpdatable old).

(** The log entry the specification asks for a field. *)
Definition entry (old new : Obligation.t) (f : tracked_field) : ChangeLog.t :=
  {| ChangeLog.Field := field_name f;
     ChangeLog.OldValue := rendered old f;
     ChangeLog.UpdatedValue := rendered new f |}.

(** The log entry the handler writes for a field (lines 362-434): for the
    classification, the rendering of the field [Modifications]. *)
Definition logged (old new : Obligation.t) (f : tracked_field) : ChangeLog.t :=
  match f with
  | FClassification =>
      {| ChangeLog.Field := "Classification";
         ChangeLog.OldValue :=
           Some (FormatBool (Obligation.Modifications old));
         ChangeLog.UpdatedValue :=
           Some (FormatBool (Obligation.Modifications new)) |}
  | _ => entry old new f
  end.

(** *** Sample data *)

(** The members that address a field tagged [json:"f"], by exact match. *)
Definition is_f : string -> bool := String.eqb "f".

(** A stand-in for the digest in closed examples. *)
Definition sample_md5 : MD5 := fun s => "md5:" ++ s.

Definition hello_row : Obligation.t :=
  {| Obligation.Id := 1;
     Obligation.Topic := "T1";
     Obligation.Type_ := "obligation";
     Obligation.Text := "hello";
     Obligation.Classification := "green";
     Obligation.Modifications := false;
     Obligation.Comment := NullString.zero_value;
     Obligation.Active := true;
     Obligation.TextUpdatable := false;
     Obligation.Md5 := "5d41402abc4b2a76b9719d911017c592" |}.

Definition sample_db : DB :=
  {| obligations := [hello_row];
     users := [{| User.Id := 7; User.Username := "alice" |}];
     licenses := [];
     obligation_maps := [];
     audits := [] |}.

(** The same database with the text of the row open to updates. *)
Definition updatable_row : Obligation.t :=
  {| Obligation.Id := 1;
     Obligation.Topic := "T1";
     Obligation.Type_ := "obligation";
     Obligation.Text := "hello";
     Obligation.Classification := "green";
     Obligation.Modifications := false;
     Obligation.Comment := NullString.zero_value;
     Obligation.Active := true;
     Obligation.TextUpdatable := true;
     Obligation.Md5 := "5d41402abc4b2a76b9719d911017c592" |}.

Definition updatable_db : DB := set_obligations sample_db [updatable_row].

(** A field of a request: left out, or decoded from a JSON value. *)
Definition left_out {T : Type} `{json.Decodable T} : OptionalData.t T :=
  OptionalData.zero_value.

Definition sent {T : Type} `{json.Decodable T} (j : json.value)
    : OptionalData.t T :=
  fst (OptionalData.UnmarshalJSON OptionalData.zero_value (Some j)).

Definition comment_sent (j : json.value) : OptionalNullableData.t string :=
  fst (OptionalNullableData.UnmarshalJSON OptionalNullableData.zero_value
         (Some j)).

Definition empty_patch : ObligationPATCHRequestJSONSchema.t :=
  {| ObligationPATCHRequestJSONSchema.Type_ := left_out;
     ObligationPATCHRequestJSONSchema.Text := left_out;
     ObligationPATCHRequestJSONSchema.Classification := left_out;
     ObligationPATCHRequestJSONSchema.Modifications := left_out;
     ObligationPATCHRequestJSONSchema.Comment :=
       OptionalNullableData.zero_value;
     ObligationPATCHRequestJSONSchema.Active := left_out;
     ObligationPATCHRequestJSONSchema.TextUpdatable := left_out |}.

Definition set_Text (u : ObligationPATCHRequestJSONSchema.t)
    (x : OptionalData.t string) : ObligationPATCHRequestJSONSchema.t :=
  {| ObligationPATCHRequestJSONSchema.Type_ :=
       ObligationPATCHRequestJSONSchema.Type_ u;
     ObligationPATCHRequestJSONSchema.Text := x;
     ObligationPATCHRequestJSONSchema.Classification :=
       ObligationPATCHRequestJSONSchema.Classification u;
     ObligationPATCHRequestJSONSchema.Modifications :=
       ObligationPATCHRequestJSONSchema.Modifications u;
     ObligationPATCHRequestJSONSchema.Comment :=
       ObligationPATCHRequestJSONSchema.Comment u;
     ObligationPATCHRequestJSONSchema.Active :=
       ObligationPATCHRequestJSONSchema.Active u;
     ObligationPATCHRequestJSONSchema.TextUpdatable :=
       ObligationPATCHRequestJSONSchema.TextUpdatable u |}.

Definition set_Classification (u : ObligationPATCHRequestJSONSchema.t)
    (x : OptionalData.t string) : ObligationPATCHRequestJSONSchema.t :=
  {| ObligationPATCHRequestJSONSchema.Type_ :=
       ObligationPATCHRequestJSONSchema.Type_ u;
     ObligationPATCHRequestJSONSchema.Text :=
       ObligationPATCHRequestJSONSchema.Text u;
     ObligationPATCHRequestJSONSchema.Classification := x;
     ObligationPATCHRequestJSONSchema.Modifications :=
       ObligationPATCHRequestJSONSchema.Modifications u;
     ObligationPATCHRequestJSONSchema.Comment :=
       ObligationPATCHRequestJSONSchema.Comment u;
     ObligationPATCHRequestJSONSchema.Active :=
       ObligationPATCHRequestJSONSchema.Active u;
     ObligationPATCHRequestJSONSchema.TextUpdatable :=
       ObligationPATCHRequestJSONSchema.TextUpdatable u |}.

(** [{"text": ""}], [{"text": "other wording"}],
    [{"classification": "red"}]. *)
Definition empty_text_patch : ObligationPATCHRequestJSONSchema.t :=
  set_Text empty_patch (sent (json.String "")).

Definition new_text_patch : ObligationPATCHRequestJSONSchema.t :=
  set_Text empty_patch (sent (json.String "other wording")).

Definition red_patch : ObligationPATCHRequestJSONSchema.t :=
  set_Classification empty_patch (sent (json.String "red")).

(** [{"text": "", "active": false}]. *)
Definition empty_text_inactive_patch : ObligationPATCHRequestJSONSchema.t :=
  {| ObligationPATCHRequestJSONSchema.Type_ := left_out;
     ObligationPATCHRequestJSONSchema.Text := sent (json.String "");
     ObligationPATCHRequestJSONSchema.Classification := left_out;
     ObligationPATCHRequestJSONSchema.Modifications := left_out;
     ObligationPATCHRequestJSONSchema.Comment :=
       OptionalNullableData.zero_value;
     ObligationPATCHRequestJSONSchema.Active := sent (json.Bool false);
     ObligationPATCHRequestJSONSchema.TextUpdatable := left_out |}.

(** The whole of [hello_row], restated. *)
Definition hello_again_patch : ObligationPATCHRequestJSONSchema.t :=
  {| ObligationPATCHRequestJSONSchema.Type_ :=
       sent (json.String "obligation");
     ObligationPATCHRequestJSONSchema.Text := sent (json.String "hello");
     ObligationPATCHRequestJSONSchema.Classification :=
       sent (json.String "green");
     ObligationPATCHRequestJSONSchema.Modifications :=
       sent (json.Bool false);
     ObligationPATCHRequestJSONSchema.Comment := comment_sent json.Null;
     ObligationPATCHRequestJSONSchema.Active := sent (json.Bool true);
     ObligationPATCHRequestJSONSchema.TextUpdatable :=
       sent (json.Bool false) |}.

(** [{"type": "risk", "classification": "red", "text_updatable": true}]. *)
Definition three_fields_patch : ObligationPATCHRequestJSONSchema.t :=
  {| ObligationPATCHRequestJSONSchema.Type_ := sent (json.String "risk");
     ObligationPATCHRequestJSONSchema.Text := left_out;
     ObligationPATCHRequestJSONSchema.Classification :=
       sent (json.String "red");
     ObligationPATCHRequestJSONSchema.Modifications := left_out;
     ObligationPATCHRequestJSONSchema.Comment :=
       OptionalNullableData.zero_value;
     ObligationPATCHRequestJSONSchema.Active := left_out;
     ObligationPATCHRequestJSONSchema.TextUpdatable :=
       sent (json.Bool true) |}.

(** The row a handler returned in its response body. *)
Definition returned_row (r : Response) : Obligation.t :=
  match r with
  | JSON_ObligationResponse _ res =>
      hd Obligation.zero_value (ObligationResponse.Data res)
  | _ => Obligation.zero_value
  end.

(** A second obligation with the topic of [hello_row] and another text. *)
Definition same_topic_request : ObligationPOSTRequestJSONSchema.t :=
  {| ObligationPOSTRequestJSONSchema.Topic := "T1";
     ObligationPOSTRequestJSONSchema.Type_ := "risk";
     ObligationPOSTRequestJSONSchema.Text := "world";
     ObligationPOSTRequestJSONSchema.Classification := "red";
     ObligationPOSTRequestJSONSchema.Modifications := false;
     ObligationPOSTRequestJSONSchema.Comment := NullString.zero_value;
     ObligationPOSTRequestJSONSchema.Active := true;
     ObligationPOSTRequestJSONSchema.Shortnames := [] |}.

End props.

(** ** pkg/api/obligations.go: the handlers that only read *)

Module queries.

Import json models golang db api.

(** [strconv.ParseBool]; [None] is the syntax error. *)
Definition ParseBool (str : string) : option bool :=
  if existsb (String.eqb str) ["1"; "t"; "T"; "TRUE"; "true"; "True"]
  then Some true
  else if existsb (String.eqb str) ["0"; "f"; "F"; "FALSE"; "false"; "False"]
  then Some false
  else None.

(** Modelled from the spec: the struct [models.AuditResponse]. *)
Module AuditResponse.
Record t : Type := mk {
  Status : Z;
  Data : list Audit.t;
  ResourceCount : Z
}.
End AuditResponse.

(** What [GetObligationAudits] leaves in the gin context. *)
Inductive AuditsAnswer : Type :=
| Audits_LicenseError (status : Z) (er : LicenseError.t)
| Audits_AuditResponse (status : Z) (res : AuditResponse.t).

(** [Where(models.Audit{TypeId: id, Type: type})]: a struct condition, the
    zero fields skipped. *)
Definition where_Audit (TypeId : Z) (Type_ : string) (a : Audit.t) : bool :=
  (if Z.eqb TypeId 0 then true else Z.eqb (Audit.TypeId a) TypeId)
  && cond_string Type_ (Audit.Type_ a).

Section ReadHandlers.

(** Modelled from the spec: [utils.PreparePaginateResponse] is not among
    the sources; it restricts the query it is given to one page (offset and
    limit from the request). The selection of the page out of the rows the
    query matches is the parameter [paginate]. *)
Variable paginate : forall A : Type, list A -> list A.

(** [query := db.DB.Model(&models.Obligation{})],
    [query.Where("active = ?", parsedActive)], the pagination of [query],
    then [query.Find(&obligations)]. *)
Definition Find_Obligations (d : DB) (parsedActive : bool)
    : list Obligation.t * option string :=
  (paginate _
     (List.filter (fun o => Bool.eqb (Obligation.Active o) parsedActive)
        (obligations d)),
   None).

(** [query := db.DB.Model(&models.Audit{})], [query.Where(models.Audit{..})],
    the pagination of [query], then [query.Find(&audits)]. *)
Definition Find_Audits (d : DB) (TypeId : Z) (Type_ : string)
    : list Audit.t * option string :=
  (paginate _ (List.filter (where_Audit TypeId Type_) (audits d)), None).

(** *** GetAllObligation; [active] is [c.Query("active")]. *)
Definition GetAllObligation (d : DB) (active : string) : Response :=
  let active := if String.eqb active "" then "true" else active in
  match ParseBool active with
  | None =>
      JSON_LicenseError StatusBadRequest
        {| LicenseError.Status := StatusBadRequest;
           LicenseError.Message := "Invalid active value";
           LicenseError.Error :=
             "Parsing failed for value '" ++ active ++ "'" |}
  | Some parsedActive =>
      match Find_Obligations d parsedActive with
      | (_, Some err) =>
          JSON_LicenseError StatusNotFound
            {| LicenseError.Status := StatusNotFound;
               LicenseError.Message := "Obligations not found";
               LicenseError.Error := err |}
      | (obligations, None) =>
          JSON_ObligationResponse StatusOK
            {| ObligationResponse.Status := StatusOK;
               ObligationResponse.Data := obligations;
               ObligationResponse.ResourceCount :=
                 Z.of_nat (length obligations) |}
      end
  end.

(** *** GetObligationAudits *)

(** [Where(models.Obligation{Topic: topic}).Select("id").First(&obligation)]:
    only the primary key is read. *)
Definition First_Obligation_Id (d : DB) (topic : string)
    : option Obligation.t :=
  match First_Obligation d topic with
  | Some o => Some (Obligation.set_Id Obligation.zero_value (Obligation.Id o))
  | None => None
  end.

Definition GetObligationAudits (d : DB) (topic : string) : AuditsAnswer :=
  match First_Obligation_Id d topic with
  | None =>
      Audits_LicenseError StatusNotFound
        {| LicenseError.Status := StatusNotFound;
           LicenseError.Message :=
             "obligation with topic '" ++ topic ++ "' not found";
           LicenseError.Error := ErrRecordNotFound |}
  | Some obligation =>
      match Find_Audits d (Obligation.Id obligation) "Obligation" with
      | (_, Some err) =>
          Audits_LicenseError StatusInternalServerError
            {| LicenseError.Status := StatusInternalServerError;
               LicenseError.Message :=
                 "unable to find audits with such obligation topic";
               LicenseError.Error := err |}
      | (audits, None) =>
          Audits_AuditResponse StatusOK
            {| AuditResponse.Status := StatusOK;
               AuditResponse.Data := audits;
               AuditResponse.ResourceCount := Z.of_nat (length audits) |}
      end
  end.

End ReadHandlers.

(** *** GetObligation *)
Definition GetObligation (d : DB) (tp : string) : Response :=
  match First_Obligation d tp with
  | None => not_found tp
  | Some obligation => ok_response StatusOK obligation
  end.

End queries.

(** ** Vocabulary of the further properties *)

Module invariants.

Import json models golang db api props queries.

(** The keys of the obligations table: the primary key, the topic and the
    digest are each unique. *)
Definition keys_unique (d : DB) : Prop :=
  NoDup (map Obligation.Id (obligations d))
  /\ NoDup (map Obligation.Topic (obligations d))
  /\ NoDup (map Obligation.Md5 (obligations d)).

(** Every stored digest is the digest of the stored text. *)
Definition digest_consistent {md5 : MD5} (d : DB) : Prop :=
  Forall (fun o => Obligation.Md5 o = md5_hex (Obligation.Text o))
         (obligations d).

(** The row [CreateObligation] builds from a request, with the primary key
    the table hands out. *)
Definition created_row {md5 : MD5} (d : DB)
    (input : ObligationPOSTRequestJSONSchema.t) : Obligation.t :=
  {| Obligation.Id := next_Id (obligations d);
     Obligation.Topic := ObligationPOSTRequestJSONSchema.Topic input;
     Obligation.Type_ := ObligationPOSTRequestJSONSchema.Type_ input;
     Obligation.Text := ObligationPOSTRequestJSONSchema.Text input;
     Obligation.Classification :=
       ObligationPOSTRequestJSONSchema.Classification input;
     Obligation.Modifications :=
       ObligationPOSTRequestJSONSchema.Modifications input;
     Obligation.Comment := ObligationPOSTRequestJSONSchema.Comment input;
     Obligation.Active := ObligationPOSTRequestJSONSchema.Active input;
     Obligation.TextUpdatable := false;
     Obligation.Md5 :=
       md5_hex (ObligationPOSTRequestJSONSchema.Text input) |}.

(** The request puts at least one column into the map of updates: an
    accepted text, or any other field that is not undefined. *)
Definition sets_a_column (old : Obligation.t)
    (updates : ObligationPATCHRequestJSONSchema.t) : bool :=
  text_accepted old updates
  || OptionalData.IsNotUndefined
       (ObligationPATCHRequestJSONSchema.Type_ updates)
  || OptionalData.IsNotUndefined
       (ObligationPATCHRequestJSONSchema.Classification updates)
  || OptionalData.IsNotUndefined
       (ObligationPATCHRequestJSONSchema.Modifications updates)
  || OptionalNullableData.IsNotUndefined
       (ObligationPATCHRequestJSONSchema.Comment updates)
  || OptionalData.IsNotUndefined
       (ObligationPATCHRequestJSONSchema.Active updates)
  || OptionalData.IsNotUndefined
       (ObligationPATCHRequestJSONSchema.TextUpdatable updates).

(** The answer of [CreateObligation] when no row was affected (lines
    173-184), for the row [FirstOrCreate] left in [obligation]. *)
Definition conflict_answer (obligation : Obligation.t) : Response :=
  match slice (Obligation.Text obligation) 0 10 with
  | None => Panic "runtime error: slice bounds out of range"
  | Some prefix =>
      JSON_LicenseError StatusConflict
        {| LicenseError.Status := StatusConflict;
           LicenseError.Message :=
             "can not create obligation with same topic or text";
           LicenseError.Error :=
             "Error: Obligation with topic '"
               ++ Obligation.Topic obligation ++ "' or Text '"
               ++ prefix ++ "'... already exists" |}
  end.

(** A log entry with its two values exchanged. *)
Definition mirrored (e : ChangeLog.t) : ChangeLog.t :=
  {| ChangeLog.Field := ChangeLog.Field e;
     ChangeLog.OldValue := ChangeLog.UpdatedValue e;
     ChangeLog.UpdatedValue := ChangeLog.OldValue e |}.

(** A page holds rows of the result it is taken from. *)
Definition selects (paginate : forall A : Type, list A -> list A) : Prop :=
  forall (A : Type) (l : list A) (x : A), In x (paginate A l) -> In x l.

(** *** Sample data *)

(** The first two rows of a result. *)
Definition first_two (A : Type) (l : list A) : list A := firstn 2 l.

(** [{"type": ""}] and [{"classification": ""}]. *)
Definition empty_type_patch : ObligationPATCHRequestJSONSchema.t :=
  {| ObligationPATCHRequestJSONSchema.Type_ := sent (json.String "");
     ObligationPATCHRequestJSONSchema.Text := left_out;
     ObligationPATCHRequestJSONSchema.Classification := left_out;
     ObligationPATCHRequestJSONSchema.Modifications := left_out;
     ObligationPATCHRequestJSONSchema.Comment :=
       OptionalNullableData.zero_value;
     ObligationPATCHRequestJSONSchema.Active := left_out;
     ObligationPATCHRequestJSONSchema.TextUpdatable := left_out |}.

Definition empty_classification_patch : ObligationPATCHRequestJSONSchema.t :=
  set_Classification empty_patch (sent (json.String "")).

(** A request for a topic and a text that [sample_db] does not hold. *)
Definition fresh_request : ObligationPOSTRequestJSONSchema.t :=
  {| ObligationPOSTRequestJSONSchema.Topic := "T2";
     ObligationPOSTRequestJSONSchema.Type_ := "risk";
     ObligationPOSTRequestJSONSchema.Text := "Keep the notices intact.";
     ObligationPOSTRequestJSONSchema.Classification := "yellow";
     ObligationPOSTRequestJSONSchema.Modifications := true;
     ObligationPOSTRequestJSONSchema.Comment := NullString.zero_value;
     ObligationPOSTRequestJSONSchema.Active := true;
     ObligationPOSTRequestJSONSchema.Shortnames := ["MIT"] |}.

(** [sample_db] with a stored text of more than ten bytes. *)
Definition notices_row : Obligation.t :=
  {| Obligation.Id := 1;
     Obligation.Topic := "T1";
     Obligation.Type_ := "obligation";
     Obligation.Text := "Keep the notices intact.";
     Obligation.Classification := "green";
     Obligation.Modifications := false;
     Obligation.Comment := NullString.zero_value;
     Obligation.Active := true;
     Obligation.TextUpdatable := false;
     Obligation.Md5 := "md5:Keep the notices intact." |}.

Definition notices_db : DB := set_obligations sample_db [notices_row].

End invariants.

(** * Properties *)

Import json models golang db api props queries invariants.

(** ** Decoding one field of a document *)

Section DecodeMember.
Context {V : Type} (Unmarshal : V -> RawMessage -> V * option error).

Lemma decode_member_absent is_field members v :
  occurrences is_field members = [] ->
  decode_member Unmarshal is_field members v = (v, None).
Proof.
  unfold occurrences.
  induction members as [|[k j] rest IH]; simpl; [reflexivity|].
  destruct (is_field k); simpl; [discriminate|exact IH].
Qed.

Lemma decode_member_once is_field members v j :
  occurrences is_field members = [j] ->
  decode_member Unmarshal is_field members v =
    match Unmarshal v (Some j) with
    | (v', None) => (v', None)
    | (v', Some e) => (v', Some e)
    end.
Proof.
  unfold occurrences.
  revert v.
  induction members as [|[k j'] rest IH]; intros v; simpl; [discriminate|].
  destruct (is_field k); simpl; [|apply IH].
  intros E. injection E as -> Hrest.
  destruct (Unmarshal v (Some j)) as [v' [e|]]; [reflexivity|].
  apply decode_member_absent. exact Hrest.
Qed.

End DecodeMember.

Lemma Unmarshal_ptr_value {T : Type} `{Decodable T} (j : value) :
  j <> Null ->
  Unmarshal_ptr (Some j) =
    match decode j with
    | inl e => inl e
    | inr x => inr (Some x)
    end.
Proof. destruct j; simpl; congruence. Qed.

(** C3. Decoding a field into [OptionalNullableData]: a document without
    the field leaves the wrapper undefined, without error; a field that is
    an explicit null gives the null state, without error; a field with a
    value is decoded as [T], giving the present state with that value, or
    the decoding error of [T] on a type mismatch. This holds for the
    documents in which at most one member addresses the field; the
    decoder also accepts a repeated member, and there it fails. *)
Theorem OptionalNullableData_three_states {T : Type} `{Decodable T}
    (is_field : string -> bool) (members : list (string * value)) :
  (length (occurrences is_field members) <= 1)%nat ->
  match occurrences is_field members with
  | [] =>
      OptionalNullableData.decode_field is_field members
        = (OptionalNullableData.zero_value, None)
      /\ OptionalNullableData.state_of
           (T := T) OptionalNullableData.zero_value
         = OptionalNullableData.Undefined
  | Null :: _ =>
      exists v,
        OptionalNullableData.decode_field is_field members = (v, None)
        /\ OptionalNullableData.state_of v = OptionalNullableData.IsNullState
  | j :: _ =>
      match decode j with
      | inr x =>
          exists v,
            OptionalNullableData.decode_field is_field members = (v, None)
            /\ OptionalNullableData.state_of v
               = OptionalNullableData.Present x
      | inl err =>
          exists v,
            OptionalNullableData.decode_field is_field members = (v, Some err)
      end
  end.
Proof.
  intros Hlen. unfold OptionalNullableData.decode_field.
  destruct (occurrences is_field members) as [|j [|j' rest]] eqn:Hocc.
  - split; [|reflexivity]. apply decode_member_absent. exact Hocc.
  - rewrite (decode_member_once _ _ _ _ _ Hocc).
    unfold OptionalNullableData.UnmarshalJSON. simpl nonempty. cbv iota.
    destruct j;
      [ simpl; eexists; split; reflexivity
      | rewrite Unmarshal_ptr_value by discriminate;
        match goal with
        | |- context [decode ?j] => destruct (decode j) as [err|x]
        end;
        [ eexists; reflexivity | eexists; split; reflexivity ] .. ].
  - simpl in Hlen. lia.
Qed.

(** C4. Decoding a field into [OptionalData]: an explicit null is the
    decoding error "field value cannot be null"; a document without the
    field leaves the wrapper undefined, without error; a field with a
    value gives the present state with that value. This holds for the
    documents in which at most one member addresses the field; the
    decoder also accepts a repeated member, and there it fails. *)
Theorem OptionalData_rejects_null {T : Type} `{Decodable T}
    (is_field : string -> bool) (members : list (string * value)) :
  (length (occurrences is_field members) <= 1)%nat ->
  match occurrences is_field members with
  | [] =>
      OptionalData.decode_field is_field members
        = (OptionalData.zero_value, None)
      /\ OptionalData.state_of (T := T) OptionalData.zero_value
         = OptionalData.Undefined
  | Null :: _ =>
      exists v,
        OptionalData.decode_field is_field members
          = (v, Some (errors_New "field value cannot be null"))
        /\ OptionalData.state_of v = OptionalData.Undefined
  | j :: _ =>
      match decode j with
      | inr x =>
          exists v,
            OptionalData.decode_field is_field members = (v, None)
            /\ OptionalData.state_of v = OptionalData.Present x
      | inl err =>
          exists v, OptionalData.decode_field is_field members = (v, Some err)
      end
  end.
Proof.
  intros Hlen. unfold OptionalData.decode_field.
  destruct (occurrences is_field members) as [|j [|j' rest]] eqn:Hocc.
  - split; [|reflexivity]. apply decode_member_absent. exact Hocc.
  - rewrite (decode_member_once _ _ _ _ _ Hocc).
    unfold OptionalData.UnmarshalJSON. simpl nonempty. cbv iota.
    destruct j;
      [ simpl; eexists; split; reflexivity
      | rewrite Unmarshal_ptr_value by discriminate;
        match goal with
        | |- context [decode ?j] => destruct (decode j) as [err|x]
        end;
        [ eexists; reflexivity | eexists; split; reflexivity ] .. ].
  - simpl in Hlen. lia.
Qed.

(** The three documents of the specification's examples, [{}],
    [{"f": null}] and [{"f": "x"}], and a type mismatch [{"f": 1}]. *)
Lemma OptionalNullableData_three_states_witness :
  ((length (occurrences is_f []) <= 1)%nat
   /\ OptionalNullableData.state_of
        (fst (OptionalNullableData.decode_field (T := string) is_f []))
      = OptionalNullableData.Undefined)
  /\ ((length (occurrences is_f [("f", Null)]) <= 1)%nat
      /\ exists v,
           OptionalNullableData.decode_field (T := string) is_f
             [("f", Null)] = (v, None)
           /\ OptionalNullableData.state_of v
              = OptionalNullableData.IsNullState)
  /\ ((length (occurrences is_f [("g", Bool true); ("f", String "x")])
       <= 1)%nat
      /\ exists v,
           OptionalNullableData.decode_field (T := string) is_f
             [("g", Bool true); ("f", String "x")] = (v, None)
           /\ OptionalNullableData.state_of v
              = OptionalNullableData.Present "x")
  /\ ((length (occurrences is_f [("f", Number 1)]) <= 1)%nat
      /\ exists v,
           OptionalNullableData.decode_field (T := string) is_f
             [("f", Number 1)]
             = (v, Some (UnmarshalTypeError "number" "string"))).
Proof.
  repeat split; try (simpl; lia).
  - exact (OptionalNullableData_three_states (T := string) is_f
             [("f", Null)] ltac:(simpl; lia)).
  - exact (OptionalNullableData_three_states (T := string) is_f
             [("g", Bool true); ("f", String "x")] ltac:(simpl; lia)).
  - exact (OptionalNullableData_three_states (T := string) is_f
             [("f", Number 1)] ltac:(simpl; lia)).
Defined.

Lemma OptionalData_rejects_null_witness :
  ((length (occurrences is_f [("f", Null)]) <= 1)%nat
   /\ exists v,
        OptionalData.decode_field (T := string) is_f [("f", Null)]
          = (v, Some (errors_New "field value cannot be null"))
        /\ OptionalData.state_of v = OptionalData.Undefined)
  /\ ((length (occurrences is_f [("f", Bool true)]) <= 1)%nat
      /\ exists v,
           OptionalData.decode_field (T := bool) is_f [("f", Bool true)]
             = (v, None)
           /\ OptionalData.state_of v = OptionalData.Present true).
Proof.
  repeat split; try (simpl; lia).
  - exact (OptionalData_rejects_null (T := string) is_f
             [("f", Null)] ltac:(simpl; lia)).
  - exact (OptionalData_rejects_null (T := bool) is_f
             [("f", Bool true)] ltac:(simpl; lia)).
Defined.

(** C3, a repeated member. In [{"f": null, "f": "x"}] the member that
    is read last carries the value ["x"], which decodes as a string, and
    in [{"f": "x", "f": null}] the member that is read first does. Both
    documents decode without error, and both leave the wrapper in the null
    state, not in the present state with ["x"]: [IsNull] is never
    cleared. *)
Lemma OptionalNullableData_repeated_member_counterexample :
  (occurrences is_f [("f", Null); ("f", String "x")] = [Null; String "x"]
   /\ decode (T := string) (String "x") = inr "x"
   /\ snd (OptionalNullableData.decode_field (T := string) is_f
             [("f", Null); ("f", String "x")]) = None
   /\ OptionalNullableData.state_of
        (fst (OptionalNullableData.decode_field (T := string) is_f
                [("f", Null); ("f", String "x")]))
      = OptionalNullableData.IsNullState
   /\ OptionalNullableData.state_of
        (fst (OptionalNullableData.decode_field (T := string) is_f
                [("f", Null); ("f", String "x")]))
      <> OptionalNullableData.Present "x")
  /\ (occurrences is_f [("f", String "x"); ("f", Null)] = [String "x"; Null]
      /\ snd (OptionalNullableData.decode_field (T := string) is_f
                [("f", String "x"); ("f", Null)]) = None
      /\ OptionalNullableData.state_of
           (fst (OptionalNullableData.decode_field (T := string) is_f
                   [("f", String "x"); ("f", Null)]))
         = OptionalNullableData.IsNullState
      /\ OptionalNullableData.state_of
           (fst (OptionalNullableData.decode_field (T := string) is_f
                   [("f", String "x"); ("f", Null)]))
         <> OptionalNullableData.Present "x").
Proof.
  repeat split; try reflexivity; simpl; discriminate.
Qed.

(** C4, a repeated member. In [{"f": null, "f": "x"}] the member that is
    read last carries the non-null value ["x"], and the document is
    refused with "field value cannot be null", the wrapper still
    undefined. In [{"f": "x", "f": "y"}] the member that is read first
    carries ["x"], and the wrapper ends present with ["y"]. In
    [{"f": "x", "f": null}] it is present with ["x"] and the document is
    refused all the same. *)
Lemma OptionalData_repeated_member_counterexample :
  (occurrences is_f [("f", Null); ("f", String "x")] = [Null; String "x"]
   /\ decode (T := string) (String "x") = inr "x"
   /\ snd (OptionalData.decode_field (T := string) is_f
             [("f", Null); ("f", String "x")])
      = Some (errors_New "field value cannot be null")
   /\ OptionalData.state_of
        (fst (OptionalData.decode_field (T := string) is_f
                [("f", Null); ("f", String "x")]))
      = OptionalData.Undefined)
  /\ (occurrences is_f [("f", String "x"); ("f", String "y")]
      = [String "x"; String "y"]
      /\ snd (OptionalData.decode_field (T := string) is_f
                [("f", String "x"); ("f", String "y")]) = None
      /\ OptionalData.state_of
           (fst (OptionalData.decode_field (T := string) is_f
                   [("f", String "x"); ("f", String "y")]))
         = OptionalData.Present "y"
      /\ OptionalData.state_of
           (fst (OptionalData.decode_field (T := string) is_f
                   [("f", String "x"); ("f", String "y")]))
         <> OptionalData.Present "x")
  /\ (occurrences is_f [("f", String "x"); ("f", Null)] = [String "x"; Null]
      /\ snd (OptionalData.decode_field (T := string) is_f
                [("f", String "x"); ("f", Null)])
         = Some (errors_New "field value cannot be null")
      /\ OptionalData.state_of
           (fst (OptionalData.decode_field (T := string) is_f
                   [("f", String "x"); ("f", Null)]))
         = OptionalData.Present "x").
Proof.
  repeat split; try reflexivity; simpl; discriminate.
Qed.

(** A field that occurs twice keeps what the first call left: after a null
    the flag [IsNull] stays set although the last member carries a value. *)
Example OptionalNullableData_null_then_value :
  OptionalNullableData.decode_field (T := string) is_f
    [("f", Null); ("f", String "x")]
  = ({| OptionalNullableData.IsNull := true;
        OptionalNullableData.IsNotUndefined := true;
        OptionalNullableData.rawJson := Some (String "x");
        OptionalNullableData.Value := "x" |}, None).
Proof. reflexivity. Qed.


(** ** The sparse map of column updates *)

Section UpdateMap.
Context {md5 : MD5}.

Lemma lookup_if_insert_ne (c : bool) (k j : string) (x : column_value)
    (m : gmap string column_value) :
  k <> j -> (if c then <[k := x]> m else m) !! j = m !! j.
Proof.
  intros Hne. destruct c; [apply lookup_insert_ne; exact Hne|reflexivity].
Qed.

Lemma lookup_if_insert_eq (c : bool) (k : string) (x : column_value)
    (m : gmap string column_value) :
  (if c then <[k := x]> m else m) !! k = if c then Some x else m !! k.
Proof. destruct c; [apply lookup_insert_eq|reflexivity]. Qed.

Lemma newObligationMap_of_inl old updates er :
  newObligationMap_of old updates = inl er ->
  exists message, er = bad_request message.
Proof.
  unfold newObligationMap_of. cbv zeta.
  repeat match goal with
         | |- context [if ?c then inl _ else _] => destruct c
         end;
    intros E; try discriminate; injection E as <-; eexists; reflexivity.
Qed.

Lemma assign_newObligationMap old updates m o :
  newObligationMap_of old updates = inr m ->
  assign m o = patched old updates o.
Proof.
  unfold newObligationMap_of. cbv zeta.
  repeat match goal with
         | |- context [if ?c then inl _ else _] => destruct c
         end;
    intros E; try discriminate; injection E as <-.
  unfold assign, patched, text_accepted, comment_of. cbv zeta.
  f_equal; unfold string_column, bool_column, nullstring_column.
  all: repeat first
         [ rewrite lookup_if_insert_eq
         | rewrite lookup_if_insert_ne by discriminate ].
  all: try (destruct (OptionalNullableData.IsNull _); cbn [negb]).
  all: repeat match goal with
              | |- context [if ?c then _ else _] => destruct c
              end; simpl.
  all: repeat first
         [ rewrite lookup_insert_eq
         | rewrite lookup_insert_ne by discriminate
         | rewrite lookup_empty ].
  all: reflexivity.
Qed.

End UpdateMap.


(** ** Rows and their primary key *)

Lemma has_Id_assign i m o : has_Id i (assign m o) = has_Id i o.
Proof. reflexivity. Qed.

Lemma find_updated_rows i m rows :
  List.find (has_Id i)
    (map (fun o => if has_Id i o then assign m o else o) rows)
  = option_map (assign m) (List.find (has_Id i) rows).
Proof.
  induction rows as [|o rows IH]; [reflexivity|].
  cbn [map List.find].
  destruct (has_Id i o) eqn:Ho.
  - rewrite has_Id_assign, Ho. reflexivity.
  - rewrite Ho. exact IH.
Qed.

Lemma First_Obligation_In d tp old :
  First_Obligation d tp = Some old ->
  In old (obligations d) /\ cond_string tp (Obligation.Topic old) = true.
Proof. unfold First_Obligation. intros E. apply find_some in E. exact E. Qed.

Lemma find_has_Id_In rows old :
  In old rows ->
  exists r, List.find (has_Id (Obligation.Id old)) rows = Some r.
Proof.
  induction rows as [|o rows IH]; simpl; [intros []|].
  intros [->|Hin].
  - unfold has_Id at 1. rewrite Z.eqb_refl. eexists. reflexivity.
  - destruct (has_Id (Obligation.Id old) o); [eexists; reflexivity|].
    apply IH. exact Hin.
Qed.

Lemma find_has_Id_unique rows old :
  NoDup (map Obligation.Id rows) ->
  In old rows ->
  List.find (has_Id (Obligation.Id old)) rows = Some old.
Proof.
  induction rows as [|o rows IH]; simpl; [intros _ []|].
  intros Hnd Hin.
  inversion Hnd as [|x l Hnotin Hnd' E]; subst x l.
  destruct Hin as [->|Hin].
  - unfold has_Id. rewrite Z.eqb_refl. reflexivity.
  - destruct (has_Id (Obligation.Id old) o) eqn:Ho.
    + exfalso. apply Hnotin. unfold has_Id in Ho.
      apply Z.eqb_eq in Ho. rewrite Ho.
      apply list_elem_of_In. apply in_map. exact Hin.
    + apply IH; assumption.
Qed.

(** ** The update handler, run *)

Section UpdateHandler.
Context {md5 : MD5}.

(** The handler after the transaction has committed or rolled back, for a
    topic that is known. *)
Lemma UpdateObligation_known d username tp body now old :
  First_Obligation d tp = Some old ->
  UpdateObligation d username tp body now =
    match body with
    | inl err => (d, invalid_json_body err)
    | inr updates =>
        match newObligationMap_of old updates with
        | inl er => (d, er)
        | inr m =>
            if Nat.eqb (size m) 0 then
              match First_User d username with
              | None => (d, failed_to_update ErrRecordNotFound)
              | Some user =>
                  let new :=
                    Obligation.set_Id Obligation.zero_value
                      (Obligation.Id old) in
                  let changes := changes_of old new in
                  (if negb (Nat.eqb (length changes) 0)
                   then
                     set_audits d
                       (append (audits d)
                          {| Audit.UserId := User.Id user;
                             Audit.TypeId := Obligation.Id new;
                             Audit.Timestamp := now;
                             Audit.Type_ := "Obligation";
                             Audit.ChangeLogs := changes |})
                   else d,
                   ok_response StatusOK new)
              end
            else if Z.eqb (Obligation.Id old) 0
            then (d, failed_to_update ErrMissingWhereClause)
            else
              match First_User d username with
              | None => (d, failed_to_update ErrRecordNotFound)
              | Some user =>
                  let rows :=
                    map (fun o => if has_Id (Obligation.Id old) o
                                  then assign m o else o)
                        (obligations d) in
                  let new :=
                    match List.find (has_Id (Obligation.Id old)) rows with
                    | Some o => o
                    | None =>
                        assign m
                          (Obligation.set_Id Obligation.zero_value
                             (Obligation.Id old))
                    end in
                  let changes := changes_of old new in
                  (if negb (Nat.eqb (length changes) 0)
                   then
                     set_audits (set_obligations d rows)
                       (append (audits d)
                          {| Audit.UserId := User.Id user;
                             Audit.TypeId := Obligation.Id new;
                             Audit.Timestamp := now;
                             Audit.Type_ := "Obligation";
                             Audit.ChangeLogs := changes |})
                   else set_obligations d rows,
                   ok_response StatusOK new)
              end
        end
    end.
Proof.
  intros Hold.
  unfold UpdateObligation, Transaction, UpdateObligation_tx.
  rewrite Hold.
  destruct body as [err|updates]; [reflexivity|].
  destruct (newObligationMap_of old updates) as [er|m]; [reflexivity|].
  unfold Updates_Returning. simpl Obligation.Id.
  destruct (Nat.eqb (size m) 0).
  - destruct (First_User d username) as [user|]; [|reflexivity].
    cbv zeta.
    destruct (negb (Nat.eqb (length (changes_of old _)) 0)); reflexivity.
  - destruct (Z.eqb (Obligation.Id old) 0); [reflexivity|].
    unfold First_User. simpl users.
    destruct (List.find _ (users d)) as [user|]; [|reflexivity].
    cbv zeta.
    destruct (negb (Nat.eqb (length (changes_of old _)) 0)); reflexivity.
Qed.

(** A rejected or failed update leaves the database as it was. *)
Lemma UpdateObligation_rollback d username tp body now d' r :
  UpdateObligation d username tp body now = (d', r) ->
  (exists new, r = ok_response StatusOK new) \/ d' = d.
Proof.
  unfold UpdateObligation, Transaction.
  destruct (UpdateObligation_tx username tp body now d)
    as [[tx r'] [err|]] eqn:Htx.
  - intros E. injection E as <- <-. right. reflexivity.
  - intros E. injection E as <- <-. left.
    unfold UpdateObligation_tx in Htx.
    destruct (First_Obligation d tp) as [old|]; [|discriminate].
    destruct body as [e|updates]; [discriminate|].
    destruct (newObligationMap_of old updates) as [er|m]; [discriminate|].
    destruct (Updates_Returning d _ m) as [[tx1 new] [e|]]; [discriminate|].
    destruct (First_User tx1 username) as [user|]; [|discriminate].
    destruct (negb _); simpl in Htx; injection Htx as <- <-;
      eexists; reflexivity.
Qed.

End UpdateHandler.

(** ** The change log *)

Lemma flat_map_filter {A B : Type} (p : A -> bool) (g : A -> B) (l : list A) :
  flat_map (fun x => if p x then [g x] else []) l = map g (List.filter p l).
Proof.
  induction l as [|x l IH]; [reflexivity|].
  cbn [flat_map List.filter]. rewrite IH.
  destruct (p x); reflexivity.
Qed.

Lemma filter_nil_existsb {A : Type} (p : A -> bool) (l : list A) :
  List.filter p l = [] <-> existsb p l = false.
Proof.
  induction l as [|x l IH]; cbn [List.filter existsb]; [tauto|].
  destruct (p x); cbn [orb]; [split; discriminate|exact IH].
Qed.

(** Eight guarded appends to an empty slice. *)
Lemma append_chain {A : Type} (c1 c2 c3 c4 c5 c6 c7 c8 : bool)
    (e1 e2 e3 e4 e5 e6 e7 e8 : A) :
  (let changes : list A := [] in
   let changes := if c1 then append changes e1 else changes in
   let changes := if c2 then append changes e2 else changes in
   let changes := if c3 then append changes e3 else changes in
   let changes := if c4 then append changes e4 else changes in
   let changes := if c5 then append changes e5 else changes in
   let changes := if c6 then append changes e6 else changes in
   let changes := if c7 then append changes e7 else changes in
   let changes := if c8 then append changes e8 else changes in
   changes)
  = flat_map (fun ce : bool * A => if fst ce then [snd ce] else [])
      [(c1, e1); (c2, e2); (c3, e3); (c4, e4);
       (c5, e5); (c6, e6); (c7, e7); (c8, e8)].
Proof. destruct c1, c2, c3, c4, c5, c6, c7, c8; reflexivity. Qed.

(** The handler's sequence of comparisons, as one pass over
    [tracked_fields]. *)
Lemma changes_of_logged old new :
  changes_of old new
  = map (logged old new) (List.filter (differs old new) tracked_fields).
Proof.
  rewrite <- flat_map_filter.
  exact (append_chain
           (differs old new FTopic) (differs old new FType)
           (differs old new FText) (differs old new FClassification)
           (differs old new FModifications) (differs old new FComment)
           (differs old new FActive) (differs old new FTextUpdatable)
           (logged old new FTopic) (logged old new FType)
           (logged old new FText) (logged old new FClassification)
           (logged old new FModifications) (logged old new FComment)
           (logged old new FActive) (logged old new FTextUpdatable)).
Qed.

Lemma Field_logged old new f :
  ChangeLog.Field (logged old new f) = field_name f.
Proof. destruct f; reflexivity. Qed.

(** The entries name the fields that differ, in the order of
    [tracked_fields]. *)
Lemma changes_of_fields old new :
  map ChangeLog.Field (changes_of old new)
  = map field_name (List.filter (differs old new) tracked_fields).
Proof.
  rewrite changes_of_logged, map_map.
  apply map_ext. intros f. apply Field_logged.
Qed.

Lemma changes_of_nil old new :
  changes_of old new = []
  <-> existsb (differs old new) tracked_fields = false.
Proof.
  rewrite changes_of_logged, <- filter_nil_existsb.
  destruct (List.filter (differs old new) tracked_fields);
    cbn [map]; split; intros E; try reflexivity; discriminate.
Qed.

Lemma In_tracked_fields f : In f tracked_fields.
Proof. destruct f; cbn; tauto. Qed.

(** X26. Every field but the classification is logged with the rendering
    the specification asks for. *)
Lemma changes_of_rendered old new f :
  f <> FClassification ->
  differs old new f = true ->
  In (entry old new f) (changes_of old new).
Proof.
  intros Hf Hd. rewrite changes_of_logged.
  replace (entry old new f) with (logged old new f)
    by (destruct f; first [reflexivity | congruence]).
  apply in_map. apply filter_In. split; [apply In_tracked_fields|exact Hd].
Qed.

(** X27. The classification is logged with the rendering of the field
    [Modifications]. *)
Lemma changes_of_classification old new :
  differs old new FClassification = true ->
  In {| ChangeLog.Field := "Classification";
        ChangeLog.OldValue :=
          Some (FormatBool (Obligation.Modifications old));
        ChangeLog.UpdatedValue :=
          Some (FormatBool (Obligation.Modifications new)) |}
     (changes_of old new).
Proof.
  intros Hd. rewrite changes_of_logged.
  change (In (logged old new FClassification)
             (map (logged old new)
                  (List.filter (differs old new) tracked_fields))).
  apply in_map. apply filter_In. split; [apply In_tracked_fields|exact Hd].
Qed.

(** ** The text guard of the update *)

Section TextGuard.
Context {md5 : MD5}.

Lemma text_guard_rejects old updates :
  OptionalData.Value (ObligationPATCHRequestJSONSchema.Text updates) <> "" ->
  Obligation.TextUpdatable old = false ->
  OptionalData.Value (ObligationPATCHRequestJSONSchema.Text updates)
    <> Obligation.Text old ->
  newObligationMap_of old updates
  = inl (bad_request "Can not update obligation text").
Proof.
  intros Hne Hflag Hdiff.
  apply String.eqb_neq in Hne, Hdiff.
  unfold newObligationMap_of. cbv zeta.
  rewrite Hne, Hflag, Hdiff. reflexivity.
Qed.

Lemma text_guard_passes old updates :
  negb (String.eqb
          (OptionalData.Value (ObligationPATCHRequestJSONSchema.Text updates))
          "")
  && negb (Obligation.TextUpdatable old)
  && negb (String.eqb
             (OptionalData.Value
                (ObligationPATCHRequestJSONSchema.Text updates))
             (Obligation.Text old)) = false ->
  newObligationMap_of old updates
  <> inl (bad_request "Can not update obligation text").
Proof.
  intros Hguard.
  unfold newObligationMap_of. cbv zeta. rewrite Hguard.
  repeat match goal with
         | |- context [if ?c then inl _ else _] => destruct c
         end;
    unfold bad_request; intros E; discriminate E.
Qed.

Lemma string_column_fixed (m : gmap string column_value) col s :
  (forall old, string_column m col old = s) ->
  m !! col = Some (VString s).
Proof.
  unfold string_column. intros Hcol.
  destruct (m !! col) as [[s'| |]|];
    try (pose proof (Hcol "a") as Ha; pose proof (Hcol "b") as Hb;
         rewrite <- Hb in Ha; discriminate Ha).
  rewrite (Hcol ""). reflexivity.
Qed.

(** An accepted text enters the map together with its digest. *)
Lemma newObligationMap_of_text old updates m :
  text_accepted old updates = true ->
  newObligationMap_of old updates = inr m ->
  m !! "text"
    = Some (VString (OptionalData.Value
                       (ObligationPATCHRequestJSONSchema.Text updates)))
  /\ m !! "md5"
     = Some (VString
               (md5_hex (OptionalData.Value
                           (ObligationPATCHRequestJSONSchema.Text updates)))).
Proof.
  intros Hacc Hm. split; apply string_column_fixed; intros s.
  - change (Obligation.Text
              (assign m (Obligation.mk 0 "" "" s "" false
                           NullString.zero_value false false ""))
            = OptionalData.Value
                (ObligationPATCHRequestJSONSchema.Text updates)).
    rewrite (assign_newObligationMap _ _ _ _ Hm).
    unfold patched. cbn [Obligation.Text]. rewrite Hacc. reflexivity.
  - change (Obligation.Md5
              (assign m (Obligation.mk 0 "" "" "" "" false
                           NullString.zero_value false false s))
            = md5_hex (OptionalData.Value
                         (ObligationPATCHRequestJSONSchema.Text updates))).
    rewrite (assign_newObligationMap _ _ _ _ Hm).
    unfold patched. cbn [Obligation.Md5]. rewrite Hacc. reflexivity.
Qed.

(** A map that sets no column leaves every row as it is. *)
Lemma assign_nothing (m : gmap string column_value) o :
  Nat.eqb (size m) 0 = true -> assign m o = o.
Proof.
  intros Hsize. apply Nat.eqb_eq in Hsize.
  apply map_size_empty_iff in Hsize. subst m.
  unfold assign, string_column, bool_column, nullstring_column.
  rewrite !lookup_empty. destruct o; reflexivity.
Qed.

(** A successful update of a known topic. When the request sets a column,
    the row returned is the stored row, the patched image of the row that
    had the primary key; when it sets none, the row returned is the zero
    row the handler prepared, with the primary key only. *)
Lemma UpdateObligation_ok d username tp updates now old d' new :
  First_Obligation d tp = Some old ->
  UpdateObligation d username tp (inr updates) now
    = (d', ok_response StatusOK new) ->
  exists m r user,
    newObligationMap_of old updates = inr m
    /\ First_User d username = Some user
    /\ List.find (has_Id (Obligation.Id old)) (obligations d) = Some r
    /\ new = (if Nat.eqb (size m) 0
              then Obligation.set_Id Obligation.zero_value
                     (Obligation.Id old)
              else patched old updates r)
    /\ obligations d'
       = map (fun o => if has_Id (Obligation.Id old) o
                       then patched old updates o else o) (obligations d)
    /\ (Nat.eqb (size m) 0 = false ->
        List.find (has_Id (Obligation.Id old)) (obligations d') = Some new)
    /\ audits d'
       = (if negb (Nat.eqb (length (changes_of old new)) 0)
          then append (audits d)
                 {| Audit.UserId := User.Id user;
                    Audit.TypeId := Obligation.Id new;
                    Audit.Timestamp := now;
                    Audit.Type_ := "Obligation";
                    Audit.ChangeLogs := changes_of old new |}
          else audits d).
Proof.
  intros Hold Hrun.
  rewrite (UpdateObligation_known _ _ _ _ _ _ Hold) in Hrun.
  destruct (newObligationMap_of old updates) as [er|m] eqn:Hm.
  { apply newObligationMap_of_inl in Hm as [msg ->].
    injection Hrun as _ E. discriminate E. }
  destruct (First_Obligation_In _ _ _ Hold) as [Hin _].
  destruct (find_has_Id_In _ _ Hin) as [r Hr].
  assert (Hrows :
    map (fun o => if has_Id (Obligation.Id old) o then assign m o else o)
        (obligations d)
    = map (fun o => if has_Id (Obligation.Id old) o
                    then patched old updates o else o) (obligations d)).
  { apply map_ext. intros o.
    rewrite (assign_newObligationMap _ _ _ o Hm). reflexivity. }
  destruct (Nat.eqb (size m) 0) eqn:Hsize.
  - destruct (First_User d username) as [user|]; [|discriminate].
    cbv zeta in Hrun. injection Hrun as Hd' Hnew. subst new.
    exists m, r, user. rewrite Hsize.
    split; [reflexivity|]. split; [reflexivity|]. split; [exact Hr|].
    split; [reflexivity|].
    assert (Hsame :
      obligations d
      = map (fun o => if has_Id (Obligation.Id old) o
                      then patched old updates o else o) (obligations d)).
    { rewrite <- Hrows. rewrite <- (map_id (obligations d)) at 1.
      apply map_ext. intros o.
      rewrite (assign_nothing m o Hsize).
      destruct (has_Id _ o); reflexivity. }
    split; [|split; [discriminate|]].
    + subst d'. destruct (negb _); exact Hsame.
    + subst d'. destruct (negb _); reflexivity.
  - destruct (Z.eqb (Obligation.Id old) 0); [discriminate|].
    destruct (First_User d username) as [user|]; [|discriminate].
    cbv zeta in Hrun.
    rewrite find_updated_rows, Hr in Hrun. cbn [option_map] in Hrun.
    rewrite (assign_newObligationMap _ _ _ r Hm) in Hrun.
    injection Hrun as Hd' Hnew. subst new.
    exists m, r, user. rewrite Hsize.
    split; [reflexivity|]. split; [reflexivity|]. split; [exact Hr|].
    split; [reflexivity|].
    split; [|split].
    + subst d'. rewrite <- Hrows. destruct (negb _); reflexivity.
    + intros _. subst d'.
      assert (Hfind :
        List.find (has_Id (Obligation.Id old))
          (map (fun o => if has_Id (Obligation.Id old) o
                         then assign m o else o) (obligations d))
        = Some (patched old updates r)).
      { rewrite find_updated_rows, Hr. cbn [option_map].
        rewrite (assign_newObligationMap _ _ _ r Hm). reflexivity. }
      destruct (negb _); exact Hfind.
    + subst d'. destruct (negb _); reflexivity.
Qed.

Lemma text_accepted_sets_column old updates m :
  text_accepted old updates = true ->
  newObligationMap_of old updates = inr m ->
  Nat.eqb (size m) 0 = false.
Proof.
  intros Hacc Hm.
  destruct (newObligationMap_of_text _ _ _ Hacc Hm) as [Htext _].
  destruct (Nat.eqb (size m) 0) eqn:Hsize; [|reflexivity].
  apply Nat.eqb_eq, map_size_empty_iff in Hsize. subst m.
  rewrite lookup_empty in Htext. discriminate.
Qed.

(** Past the text guard, no answer is the text error. *)
Lemma UpdateObligation_not_text_error d username tp updates now old :
  First_Obligation d tp = Some old ->
  newObligationMap_of old updates
    <> inl (bad_request "Can not update obligation text") ->
  snd (UpdateObligation d username tp (inr updates) now)
    <> bad_request "Can not update obligation text".
Proof.
  intros Hold Hpass.
  rewrite (UpdateObligation_known _ _ _ _ _ _ Hold).
  destruct (newObligationMap_of old updates) as [er|m].
  - cbn [snd]. congruence.
  - destruct (Nat.eqb (size m) 0).
    + destruct (First_User d username); discriminate.
    + destruct (Z.eqb (Obligation.Id old) 0); [discriminate|].
      destruct (First_User d username); discriminate.
Qed.

(** A request that leaves every row as it is sets no column. *)
Lemma patched_identity_sets_nothing old updates :
  (forall o, patched old updates o = o) ->
  sets_a_column old updates = false.
Proof.
  intros Hid. unfold sets_a_column.
  set (row := fun ty tx cl mo co ac tu =>
                Obligation.mk 0 "" ty tx cl mo co ac tu "").
  set (c1 := NullString.mk "a" true). set (c2 := NullString.mk "b" true).
  assert (H1 := Hid (row "a" "a" "a" true c1 true true)).
  assert (H2 := Hid (row "b" "b" "b" false c2 false false)).
  unfold patched, row in H1, H2. cbv zeta in H1, H2.
  cbn [Obligation.Id Obligation.Topic Obligation.Type_ Obligation.Text
       Obligation.Classification Obligation.Modifications Obligation.Comment
       Obligation.Active Obligation.TextUpdatable Obligation.Md5] in H1, H2.
  injection H1 as Hty1 Htx1 Hcl1 Hmo1 Hco1 Hac1 Htu1 _.
  injection H2 as Hty2 Htx2 Hcl2 Hmo2 Hco2 Hac2 Htu2 _.
  destruct (text_accepted old updates);
    [rewrite Htx1 in Htx2; discriminate|].
  destruct (OptionalData.IsNotUndefined
              (ObligationPATCHRequestJSONSchema.Type_ updates));
    [rewrite Hty1 in Hty2; discriminate|].
  destruct (OptionalData.IsNotUndefined
              (ObligationPATCHRequestJSONSchema.Classification updates));
    [rewrite Hcl1 in Hcl2; discriminate|].
  destruct (OptionalData.IsNotUndefined
              (ObligationPATCHRequestJSONSchema.Modifications updates));
    [rewrite Hmo1 in Hmo2; discriminate|].
  destruct (OptionalNullableData.IsNotUndefined
              (ObligationPATCHRequestJSONSchema.Comment updates));
    [rewrite Hco1 in Hco2; discriminate|].
  destruct (OptionalData.IsNotUndefined
              (ObligationPATCHRequestJSONSchema.Active updates));
    [rewrite Hac1 in Hac2; discriminate|].
  destruct (OptionalData.IsNotUndefined
              (ObligationPATCHRequestJSONSchema.TextUpdatable updates));
    [rewrite Htu1 in Htu2; discriminate|].
  reflexivity.
Qed.

(** The map of updates is empty exactly when the request sets no column. *)
Lemma size_newObligationMap old updates m :
  newObligationMap_of old updates = inr m ->
  Nat.eqb (size m) 0 = negb (sets_a_column old updates).
Proof.
  intros Hm. destruct (sets_a_column old updates) eqn:Hsets; cbn [negb].
  - destruct (Nat.eqb (size m) 0) eqn:Hsize; [|reflexivity].
    rewrite patched_identity_sets_nothing in Hsets; [discriminate|].
    intros o. rewrite <- (assign_newObligationMap _ _ _ o Hm).
    apply assign_nothing. exact Hsize.
  - unfold sets_a_column in Hsets.
    repeat match type of Hsets with
           | (_ || _)%bool = false =>
               let H := fresh "Hflag" in
               apply orb_false_elim in Hsets as [Hsets H]
           end.
    unfold text_accepted in Hsets. cbv zeta in Hsets.
    unfold newObligationMap_of in Hm. cbv zeta in Hm.
    rewrite Hsets, Hflag, Hflag0, Hflag1, Hflag2, Hflag3, Hflag4 in Hm.
    cbn [andb] in Hm.
    destruct (negb _ && negb _ && negb _) in Hm; [discriminate|].
    injection Hm as <-. reflexivity.
Qed.

End TextGuard.

(** ** The claims about the update handler *)

Lemma state_of_Present {T : Type} `{Decodable T} (x : OptionalData.t T) v :
  OptionalData.state_of x = OptionalData.Present v ->
  OptionalData.IsNotUndefined x = true /\ OptionalData.Value x = v.
Proof.
  unfold OptionalData.state_of.
  destruct (OptionalData.IsNotUndefined x); cbn [negb]; intros E;
    [injection E as <-; split; reflexivity|discriminate].
Qed.

Lemma differs_refl o f : differs o o f = false.
Proof.
  destruct f; cbn [differs]; unfold NullString.eqb;
    rewrite ?String.eqb_refl, ?Bool.eqb_reflx; reflexivity.
Qed.

Lemma changes_of_same o : changes_of o o = [].
Proof.
  apply changes_of_nil. unfold tracked_fields. cbn [existsb].
  rewrite !differs_refl. reflexivity.
Qed.

Lemma length_zero_nil {A : Type} (l : list A) :
  Nat.eqb (length l) 0 = true <-> l = [].
Proof. destruct l; cbn; split; intros E; try reflexivity; discriminate. Qed.

Section UpdateClaims.
Context {md5 : MD5}.

(** C1 (not met by the code). An update that changes only the
    classification, from "green" to "red", is logged with the prior value
    "false" and the new value "false": the renderings of the unchanged
    field [Modifications], where the claim asks for "green" and "red". *)
Theorem classification_logged_as_modifications :
  audits (fst (UpdateObligation sample_db "alice" "T1" (inr red_patch) 1000))
  = [{| Audit.UserId := 7;
        Audit.TypeId := 1;
        Audit.Timestamp := 1000;
        Audit.Type_ := "Obligation";
        Audit.ChangeLogs :=
          [{| ChangeLog.Field := "Classification";
              ChangeLog.OldValue := Some "false";
              ChangeLog.UpdatedValue := Some "false" |}] |}]
  /\ Obligation.Classification hello_row = "green"
  /\ Obligation.Classification
       (returned_row
          (snd (UpdateObligation sample_db "alice" "T1" (inr red_patch) 1000)))
     = "red".
Proof. repeat split. Qed.

(** C2, as amended. For a known topic and a request whose text is not
    empty and differs from the stored text: when the row is not
    text-updatable the update is answered 400 "Can not update obligation
    text" and the database (rows and audit records) is what it was; when
    the row is text-updatable the answer is not that error, the map of
    column updates carries the new text and the digest computed from it,
    and an update that succeeds stores and returns the row with that text
    and that digest. *)
Theorem text_update_policy d username tp updates now old :
  First_Obligation d tp = Some old ->
  OptionalData.Value (ObligationPATCHRequestJSONSchema.Text updates) <> "" ->
  OptionalData.Value (ObligationPATCHRequestJSONSchema.Text updates)
    <> Obligation.Text old ->
  if Obligation.TextUpdatable old
  then
    snd (UpdateObligation d username tp (inr updates) now)
      <> bad_request "Can not update obligation text"
    /\ (forall m,
          newObligationMap_of old updates = inr m ->
          m !! "text"
            = Some (VString
                      (OptionalData.Value
                         (ObligationPATCHRequestJSONSchema.Text updates)))
          /\ m !! "md5"
             = Some (VString
                       (md5_hex
                          (OptionalData.Value
                             (ObligationPATCHRequestJSONSchema.Text
                                updates)))))
    /\ (forall d' new,
          UpdateObligation d username tp (inr updates) now
            = (d', ok_response StatusOK new) ->
          List.find (has_Id (Obligation.Id old)) (obligations d') = Some new
          /\ Obligation.Text new
             = OptionalData.Value
                 (ObligationPATCHRequestJSONSchema.Text updates)
          /\ Obligation.Md5 new
             = md5_hex (OptionalData.Value
                          (ObligationPATCHRequestJSONSchema.Text updates)))
  else
    UpdateObligation d username tp (inr updates) now
    = (d, bad_request "Can not update obligation text").
Proof.
  intros Hold Hne Hdiff.
  destruct (Obligation.TextUpdatable old) eqn:Hflag.
  - assert (Hacc : text_accepted old updates = true).
    { unfold text_accepted. cbv zeta. rewrite Hflag.
      apply String.eqb_neq in Hne, Hdiff. rewrite Hne, Hdiff. reflexivity. }
    split; [|split].
    + pose proof (text_guard_passes old updates) as Hpass.
      rewrite Hflag in Hpass. cbn [negb] in Hpass.
      rewrite andb_false_r in Hpass. specialize (Hpass eq_refl).
      exact (UpdateObligation_not_text_error _ _ _ _ _ _ Hold Hpass).
    + intros m Hm. exact (newObligationMap_of_text _ _ _ Hacc Hm).
    + intros d' new Hrun.
      destruct (UpdateObligation_ok _ _ _ _ _ _ _ _ Hold Hrun)
        as (m & r & user & Hm & _ & _ & Hnew & _ & Hfind & _).
      pose proof (text_accepted_sets_column _ _ _ Hacc Hm) as Hsize.
      rewrite Hsize in Hnew.
      split; [exact (Hfind Hsize)|].
      subst new. unfold patched. cbn [Obligation.Text Obligation.Md5].
      rewrite Hacc. split; reflexivity.
  - rewrite (UpdateObligation_known _ _ _ _ _ _ Hold).
    rewrite (text_guard_rejects _ _ Hne Hflag Hdiff). reflexivity.
Qed.

(** C9. A request whose text is present with the empty string is never
    answered with the text error, and it changes the text and the digest
    of no row: whatever the row's text-updatable flag and stored text. *)
Theorem empty_text_is_no_update d username tp updates now :
  OptionalData.state_of (ObligationPATCHRequestJSONSchema.Text updates)
    = OptionalData.Present "" ->
  snd (UpdateObligation d username tp (inr updates) now)
    <> bad_request "Can not update obligation text"
  /\ map Obligation.Text
       (obligations (fst (UpdateObligation d username tp (inr updates) now)))
     = map Obligation.Text (obligations d)
  /\ map Obligation.Md5
       (obligations (fst (UpdateObligation d username tp (inr updates) now)))
     = map Obligation.Md5 (obligations d).
Proof.
  intros Hstate. apply state_of_Present in Hstate as [_ Hval].
  destruct (First_Obligation d tp) as [old|] eqn:Hold.
  2:{ unfold UpdateObligation, Transaction, UpdateObligation_tx.
      rewrite Hold. cbn [fst snd]. repeat split. discriminate. }
  assert (Hacc : text_accepted old updates = false).
  { unfold text_accepted. cbv zeta. rewrite Hval.
    cbn. apply andb_false_r. }
  split.
  - pose proof (text_guard_passes old updates) as Hpass.
    rewrite Hval in Hpass. specialize (Hpass eq_refl).
    exact (UpdateObligation_not_text_error _ _ _ _ _ _ Hold Hpass).
  - destruct (UpdateObligation d username tp (inr updates) now)
      as [d' r] eqn:Hrun.
    cbn [fst].
    destruct (UpdateObligation_rollback _ _ _ _ _ _ _ Hrun)
      as [[new ->]| ->]; [|split; reflexivity].
    destruct (UpdateObligation_ok _ _ _ _ _ _ _ _ Hold Hrun)
      as (m & r & user & _ & _ & _ & _ & Hrows & _).
    rewrite Hrows, !map_map.
    split; apply map_ext; intros o;
      destruct (has_Id (Obligation.Id old) o); try reflexivity;
      unfold patched; cbn [Obligation.Text Obligation.Md5];
      rewrite Hacc; reflexivity.
Qed.

End UpdateClaims.

(** ** The claims about the audit trail *)

Lemma same_Id_same_row rows o old :
  NoDup (map Obligation.Id rows) ->
  In o rows -> In old rows ->
  has_Id (Obligation.Id old) o = true -> o = old.
Proof.
  intros Hnd Ho Hold Hid. unfold has_Id in Hid. apply Z.eqb_eq in Hid.
  pose proof (find_has_Id_unique _ _ Hnd Ho) as Ho'.
  pose proof (find_has_Id_unique _ _ Hnd Hold) as Hold'.
  rewrite Hid in Ho'. congruence.
Qed.

Section AuditClaims.
Context {md5 : MD5}.

(** A body that restates the row patches the row into itself. *)
Lemma patched_same_as_current old updates :
  comment_as_stored old ->
  same_as_current old updates ->
  patched old updates old = old.
Proof.
  intros Hstored (Hty & Htx & Hcl & Hmo & Hco & Hac & Htu).
  apply state_of_Present in Hty as [Hty1 Hty2].
  apply state_of_Present in Htx as [Htx1 Htx2].
  apply state_of_Present in Hcl as [Hcl1 Hcl2].
  apply state_of_Present in Hmo as [Hmo1 Hmo2].
  apply state_of_Present in Hac as [Hac1 Hac2].
  apply state_of_Present in Htu as [Htu1 Htu2].
  assert (Hacc : text_accepted old updates = false).
  { unfold text_accepted. cbv zeta. rewrite Htx2, String.eqb_refl.
    cbn [negb]. rewrite !andb_false_r. reflexivity. }
  assert (Hcomment :
    (if OptionalNullableData.IsNotUndefined
          (ObligationPATCHRequestJSONSchema.Comment updates)
     then comment_of (ObligationPATCHRequestJSONSchema.Comment updates)
     else Obligation.Comment old) = Obligation.Comment old).
  { unfold comment_as_stored in Hstored.
    unfold OptionalNullableData.state_of, comment_of in *.
    destruct (Obligation.Comment old) as [str valid].
    cbn [NullString.Valid NullString.String] in *.
    destruct (OptionalNullableData.IsNotUndefined _); cbn [negb] in Hco;
      [|destruct valid; discriminate].
    destruct (OptionalNullableData.IsNull _), valid; try discriminate.
    - rewrite (Hstored eq_refl). reflexivity.
    - injection Hco as ->. reflexivity. }
  unfold patched. cbv zeta.
  rewrite Hacc, Hty1, Hty2, Hcl1, Hcl2, Hmo1, Hmo2, Hac1, Hac2, Htu1, Htu2,
    Hcomment.
  destruct old; reflexivity.
Qed.

(** C6 (not met by the code). The request [{}] on the stored obligation
    ("T1", "hello") sets no column, so no statement runs and no stored
    field changes; the handler still compares the loaded row with the zero
    row it prepared, answers 200 with that zero row, and writes an audit
    record of five entries. The claim asks for no audit record when no
    tracked field changed. *)
Theorem update_without_columns_writes_audit :
  UpdateObligation sample_db "alice" "T1" (inr empty_patch) 1000
  = (set_audits sample_db
       [{| Audit.UserId := 7;
           Audit.TypeId := 1;
           Audit.Timestamp := 1000;
           Audit.Type_ := "Obligation";
           Audit.ChangeLogs :=
             [{| ChangeLog.Field := "Topic";
                 ChangeLog.OldValue := Some "T1";
                 ChangeLog.UpdatedValue := Some "" |};
              {| ChangeLog.Field := "Type";
                 ChangeLog.OldValue := Some "obligation";
                 ChangeLog.UpdatedValue := Some "" |};
              {| ChangeLog.Field := "Text";
                 ChangeLog.OldValue := Some "hello";
                 ChangeLog.UpdatedValue := Some "" |};
              {| ChangeLog.Field := "Classification";
                 ChangeLog.OldValue := Some "false";
                 ChangeLog.UpdatedValue := Some "false" |};
              {| ChangeLog.Field := "Active";
                 ChangeLog.OldValue := Some "true";
                 ChangeLog.UpdatedValue := Some "false" |}] |}],
     ok_response StatusOK (Obligation.set_Id Obligation.zero_value 1))
  /\ obligations
       (fst (UpdateObligation sample_db "alice" "T1" (inr empty_patch) 1000))
     = obligations sample_db.
Proof. split; reflexivity. Qed.

(** X28. After a successful update an audit record has been appended
    exactly when some tracked field differs between the row loaded before
    the update and the row the handler got back; the record then carries
    the (non-empty) change log. When the request sets a column, the row
    the handler got back is the stored row. In particular a body that
    restates the row, in a consistent database, returns the row as it was
    with an empty change log, no audit record and the rows untouched. *)
Theorem audit_iff_returned_row_differs d username tp updates now old d' new :
  First_Obligation d tp = Some old ->
  UpdateObligation d username tp (inr updates) now
    = (d', ok_response StatusOK new) ->
  (sets_a_column old updates = true ->
   List.find (has_Id (Obligation.Id old)) (obligations d') = Some new)
  /\ (if existsb (differs old new) tracked_fields
      then
        changes_of old new <> []
        /\ exists audit,
             audits d' = append (audits d) audit
             /\ Audit.ChangeLogs audit = changes_of old new
             /\ Audit.TypeId audit = Obligation.Id new
             /\ Audit.Type_ audit = "Obligation"
      else changes_of old new = [] /\ audits d' = audits d)
  /\ (db_consistent d ->
      same_as_current old updates ->
      new = old
      /\ changes_of old new = []
      /\ audits d' = audits d
      /\ obligations d' = obligations d).
Proof.
  intros Hold Hrun.
  destruct (UpdateObligation_ok _ _ _ _ _ _ _ _ Hold Hrun)
    as (m & r & user & Hm & Huser & Hr & Hnew & Hrows & Hfind & Haudits).
  pose proof (size_newObligationMap _ _ _ Hm) as Hsize.
  split; [|split].
  - intros Hsets. apply Hfind. rewrite Hsize, Hsets. reflexivity.
  - destruct (existsb (differs old new) tracked_fields) eqn:Hex.
    + assert (Hne : changes_of old new <> []).
      { intros E. apply changes_of_nil in E. congruence. }
      split; [exact Hne|].
      destruct (Nat.eqb (length (changes_of old new)) 0) eqn:Hlen.
      { apply length_zero_nil in Hlen. contradiction. }
      cbn [negb] in Haudits.
      eexists. split; [exact Haudits|]. repeat split.
    + assert (Hnil : changes_of old new = []).
      { apply changes_of_nil. exact Hex. }
      split; [exact Hnil|].
      rewrite Hnil in Haudits. exact Haudits.
  - intros [Hnd Hstored] Hsame.
    destruct (First_Obligation_In _ _ _ Hold) as [Hin _].
    assert (Hold_stored : comment_as_stored old).
    { rewrite Forall_forall in Hstored. apply Hstored.
      apply list_elem_of_In. exact Hin. }
    assert (Hsets : sets_a_column old updates = true).
    { destruct Hsame as (Hty & _).
      apply state_of_Present in Hty as [Hty _].
      unfold sets_a_column. rewrite Hty, orb_true_r. reflexivity. }
    rewrite Hsize, Hsets in Hnew. cbn [negb] in Hnew.
    rewrite (find_has_Id_unique _ _ Hnd Hin) in Hr.
    injection Hr as <-.
    rewrite (patched_same_as_current _ _ Hold_stored Hsame) in Hnew.
    subst new. rewrite changes_of_same in *.
    repeat split; try assumption.
    rewrite Hrows. rewrite <- (map_id (obligations d)) at 2.
    apply map_ext_in. intros o Ho.
    destruct (has_Id (Obligation.Id old) o) eqn:Hid; [|reflexivity].
    rewrite (same_Id_same_row _ _ _ Hnd Ho Hin Hid).
    apply patched_same_as_current; assumption.
Qed.

(** C7. When a successful update changes tracked fields, the audit record
    it appends lists them in the fixed order topic, type, text,
    classification, modifications, comment, active, text-updatable: the
    field names of its change log are the names of the differing fields in
    the order of [tracked_fields]. *)
Theorem change_log_in_fixed_order d username tp updates now old d' new :
  First_Obligation d tp = Some old ->
  UpdateObligation d username tp (inr updates) now
    = (d', ok_response StatusOK new) ->
  List.filter (differs old new) tracked_fields <> [] ->
  map field_name tracked_fields
    = ["Topic"; "Type"; "Text"; "Classification"; "Modifications";
       "Comment"; "Active"; "TextUpdatable"]
  /\ exists audit,
       audits d' = append (audits d) audit
       /\ map ChangeLog.Field (Audit.ChangeLogs audit)
          = map field_name (List.filter (differs old new) tracked_fields).
Proof.
  intros Hold Hrun Hsome. split; [reflexivity|].
  destruct (UpdateObligation_ok _ _ _ _ _ _ _ _ Hold Hrun)
    as (m & r & user & _ & _ & _ & _ & _ & _ & Haudits).
  destruct (Nat.eqb (length (changes_of old new)) 0) eqn:Hlen.
  { apply length_zero_nil in Hlen. rewrite changes_of_logged in Hlen.
    destruct (List.filter (differs old new) tracked_fields);
      [contradiction|discriminate]. }
  cbn [negb] in Haudits.
  eexists. split; [exact Haudits|].
  cbn [Audit.ChangeLogs]. apply changes_of_fields.
Qed.

End AuditClaims.

(** ** Deactivation and creation *)

(** C10. Deactivating a known topic answers 204, saves the loaded row with
    [Active] cleared over the row it was loaded from, and leaves the audit
    records as they were: [DeleteObligation] never calls [changes_of] nor
    [Create_Audit], and it runs outside [Transaction]. *)
Theorem deactivate_writes_no_audit d tp old :
  First_Obligation d tp = Some old ->
  snd (DeleteObligation d tp) = Status StatusNoContent
  /\ audits (fst (DeleteObligation d tp)) = audits d
  /\ obligations (fst (DeleteObligation d tp))
     = map (fun o =>
              if has_Id (Obligation.Id old) o
                 && cond_string tp (Obligation.Topic o)
              then Obligation.set_Active old false else o)
           (obligations d)
  /\ In (Obligation.set_Active old false)
        (obligations (fst (DeleteObligation d tp))).
Proof.
  intros Hold. unfold DeleteObligation. rewrite Hold. cbn [fst snd].
  destruct (First_Obligation_In _ _ _ Hold) as [Hin Hcond].
  assert (Hhit :
    existsb (fun o => has_Id (Obligation.Id old) o
                      && cond_string tp (Obligation.Topic o))
            (obligations d) = true).
  { apply existsb_exists. exists old. split; [exact Hin|].
    unfold has_Id. rewrite Z.eqb_refl, Hcond. reflexivity. }
  unfold Save. cbn [Obligation.set_Active Obligation.Id].
  rewrite Hhit. cbn [obligations audits set_obligations].
  repeat split.
  apply in_map_iff. exists old. split; [|exact Hin].
  unfold has_Id. rewrite Z.eqb_refl, Hcond. reflexivity.
Qed.

Section CreateClaims.
Context {md5 : MD5}.

(** A request that matches a stored row whose text has ten bytes or more
    is answered 409 and inserts nothing. *)
Lemma CreateObligation_conflict d input found :
  List.find
    (where_Topic_or_Md5 (ObligationPOSTRequestJSONSchema.Topic input)
       (md5_hex (ObligationPOSTRequestJSONSchema.Text input)))
    (obligations d) = Some found ->
  (10 <= String.length (Obligation.Text found))%nat ->
  exists er,
    CreateObligation d (inr input) = (d, JSON_LicenseError StatusConflict er).
Proof.
  intros Hfound Hlen.
  unfold CreateObligation, FirstOrCreate. cbv zeta.
  cbn [Obligation.Topic Obligation.Md5]. rewrite Hfound.
  cbn [Z.eqb]. unfold slice.
  apply Nat.leb_le in Hlen. rewrite Hlen. cbn [Nat.leb andb].
  eexists. reflexivity.
Qed.

(** C5 (not met by the code). With the obligation ("T1", "hello") stored, a
    create request with the same topic "T1" finds the stored row, and
    building the conflict message slices the first ten bytes of its
    five-byte text: the handler panics instead of answering 409. Nothing
    is inserted. *)
Theorem create_conflict_panics_on_short_text :
  CreateObligation sample_db (inr same_topic_request)
  = (sample_db, Panic "runtime error: slice bounds out of range").
Proof.
  unfold CreateObligation, FirstOrCreate, where_Topic_or_Md5. cbv zeta.
  cbn [ObligationPOSTRequestJSONSchema.Text
       ObligationPOSTRequestJSONSchema.Topic same_topic_request
       Obligation.Topic Obligation.Md5].
  destruct (String.eqb (md5_hex "world") ""); reflexivity.
Qed.

End CreateClaims.

(** ** Instances of the claims on the sample data *)

(** C2 as stated fails: the request [{"text": "", "active": false}]
    provides a text that differs from the stored "hello" of a row that is
    not text-updatable; the update is not answered with a validation error
    but with status 200, the row is changed (deactivated) and an audit
    record is written. *)
Lemma text_policy_counterexample :
  First_Obligation sample_db "T1" = Some hello_row
  /\ OptionalData.state_of
       (ObligationPATCHRequestJSONSchema.Text empty_text_inactive_patch)
     = OptionalData.Present ""
  /\ "" <> Obligation.Text hello_row
  /\ Obligation.TextUpdatable hello_row = false
  /\ UpdateObligation (md5 := sample_md5) sample_db "alice" "T1"
       (inr empty_text_inactive_patch) 1000
     = (set_audits
          (set_obligations sample_db [Obligation.set_Active hello_row false])
          [{| Audit.UserId := 7;
              Audit.TypeId := 1;
              Audit.Timestamp := 1000;
              Audit.Type_ := "Obligation";
              Audit.ChangeLogs :=
                [{| ChangeLog.Field := "Active";
                    ChangeLog.OldValue := Some "true";
                    ChangeLog.UpdatedValue := Some "false" |}] |}],
        ok_response StatusOK (Obligation.set_Active hello_row false))
  /\ status_of
       (snd (UpdateObligation (md5 := sample_md5) sample_db "alice" "T1"
               (inr empty_text_inactive_patch) 1000))
     <> Some StatusBadRequest.
Proof.
  split; [reflexivity|]. split; [reflexivity|]. split; [discriminate|].
  split; [reflexivity|]. split; [reflexivity|].
  intros E. vm_compute in E. discriminate E.
Qed.

Lemma text_update_policy_witness :
  (First_Obligation sample_db "T1" = Some hello_row
   /\ OptionalData.Value
        (ObligationPATCHRequestJSONSchema.Text new_text_patch) <> ""
   /\ OptionalData.Value
        (ObligationPATCHRequestJSONSchema.Text new_text_patch)
      <> Obligation.Text hello_row
   /\ UpdateObligation (md5 := sample_md5) sample_db "alice" "T1"
        (inr new_text_patch) 1000
      = (sample_db, bad_request "Can not update obligation text"))
  /\ (First_Obligation updatable_db "T1" = Some updatable_row
      /\ snd (UpdateObligation (md5 := sample_md5) updatable_db "alice" "T1"
                (inr new_text_patch) 1000)
         <> bad_request "Can not update obligation text").
Proof.
  split.
  - split; [reflexivity|]. split; [discriminate|]. split; [discriminate|].
    exact (text_update_policy (md5 := sample_md5) sample_db "alice" "T1"
             new_text_patch 1000 hello_row eq_refl
             ltac:(discriminate) ltac:(discriminate)).
  - split; [reflexivity|].
    exact (proj1
             (text_update_policy (md5 := sample_md5) updatable_db "alice"
                "T1" new_text_patch 1000 updatable_row eq_refl
                ltac:(discriminate) ltac:(discriminate))).
Defined.

Lemma empty_text_is_no_update_witness :
  OptionalData.state_of
    (ObligationPATCHRequestJSONSchema.Text empty_text_patch)
  = OptionalData.Present ""
  /\ snd (UpdateObligation (md5 := sample_md5) updatable_db "alice" "T1"
            (inr empty_text_patch) 1000)
     <> bad_request "Can not update obligation text"
  /\ map Obligation.Text
       (obligations
          (fst (UpdateObligation (md5 := sample_md5) updatable_db "alice"
                  "T1" (inr empty_text_patch) 1000)))
     = map Obligation.Text (obligations updatable_db)
  /\ map Obligation.Md5
       (obligations
          (fst (UpdateObligation (md5 := sample_md5) updatable_db "alice"
                  "T1" (inr empty_text_patch) 1000)))
     = map Obligation.Md5 (obligations updatable_db).
Proof.
  split; [reflexivity|].
  exact (empty_text_is_no_update (md5 := sample_md5) updatable_db "alice"
           "T1" empty_text_patch 1000 eq_refl).
Defined.

Lemma sample_db_consistent : db_consistent sample_db.
Proof.
  split.
  - apply NoDup_singleton.
  - repeat constructor.
Qed.

Lemma hello_again_same_as_current :
  same_as_current hello_row hello_again_patch.
Proof. repeat split. Qed.

Lemma audit_iff_returned_row_differs_witness :
  (First_Obligation sample_db "T1" = Some hello_row
   /\ UpdateObligation (md5 := sample_md5) sample_db "alice" "T1"
        (inr hello_again_patch) 1000
      = (sample_db, ok_response StatusOK hello_row)
   /\ db_consistent sample_db
   /\ same_as_current hello_row hello_again_patch
   /\ changes_of hello_row hello_row = []
   /\ audits sample_db = audits sample_db)
  /\ (exists d' new,
        UpdateObligation (md5 := sample_md5) sample_db "alice" "T1"
          (inr three_fields_patch) 1000
        = (d', ok_response StatusOK new)
        /\ sets_a_column hello_row three_fields_patch = true
        /\ List.find (has_Id (Obligation.Id hello_row)) (obligations d')
           = Some new
        /\ existsb (differs hello_row new) tracked_fields = true
        /\ exists audit,
             audits d' = append (audits sample_db) audit
             /\ Audit.ChangeLogs audit = changes_of hello_row new
             /\ Audit.TypeId audit = Obligation.Id new
             /\ Audit.Type_ audit = "Obligation").
Proof.
  split.
  - split; [reflexivity|]. split; [reflexivity|].
    split; [exact sample_db_consistent|].
    split; [exact hello_again_same_as_current|].
    pose proof
      (proj2 (proj2
         (audit_iff_returned_row_differs (md5 := sample_md5) sample_db
            "alice" "T1" hello_again_patch 1000 hello_row sample_db
            hello_row eq_refl eq_refl))
         sample_db_consistent hello_again_same_as_current) as H.
    split; [exact (proj1 (proj2 H))|exact (proj1 (proj2 (proj2 H)))].
  - eexists. eexists. split; [reflexivity|]. split; [reflexivity|].
    pose proof
      (audit_iff_returned_row_differs (md5 := sample_md5) sample_db
         "alice" "T1" three_fields_patch 1000 hello_row _ _
         eq_refl eq_refl) as (Hfind & Hiff & _).
    split; [exact (Hfind eq_refl)|]. split; [reflexivity|].
    exact (proj2 Hiff).
Defined.

Lemma change_log_in_fixed_order_witness :
  exists d' new,
    First_Obligation sample_db "T1" = Some hello_row
    /\ UpdateObligation (md5 := sample_md5) sample_db "alice" "T1"
         (inr three_fields_patch) 1000
       = (d', ok_response StatusOK new)
    /\ List.filter (differs hello_row new) tracked_fields
       = [FType; FClassification; FTextUpdatable]
    /\ exists audit,
         audits d' = append (audits sample_db) audit
         /\ map ChangeLog.Field (Audit.ChangeLogs audit)
            = ["Type"; "Classification"; "TextUpdatable"].
Proof.
  eexists. eexists. split; [reflexivity|]. split; [reflexivity|].
  split; [reflexivity|].
  exact (proj2
    (change_log_in_fixed_order (md5 := sample_md5) sample_db "alice" "T1"
       three_fields_patch 1000 hello_row _ _ eq_refl eq_refl
       ltac:(discriminate))).
Defined.

Lemma deactivate_writes_no_audit_witness :
  First_Obligation sample_db "T1" = Some hello_row
  /\ snd (DeleteObligation sample_db "T1") = Status StatusNoContent
  /\ audits (fst (DeleteObligation sample_db "T1")) = audits sample_db
  /\ obligations (fst (DeleteObligation sample_db "T1"))
     = [Obligation.set_Active hello_row false].
Proof.
  split; [reflexivity|].
  pose proof (deactivate_writes_no_audit sample_db "T1" hello_row eq_refl)
    as (H1 & H2 & H3 & _).
  split; [exact H1|]. split; [exact H2|exact H3].
Defined.

(** * Further properties *)

(** ** The wrappers of [pkg/models] *)


(** X2. [NullString.UnmarshalJSON] fails exactly on no input and on a JSON
    value that is neither null nor a string, and a failed call leaves the
    receiver as it was. *)
Theorem NullString_decode_errors (v : NullString.t) (data : RawMessage) :
  match data with
  | Some Null | Some (String _) =>
      snd (NullString.UnmarshalJSON v data) = None
  | _ =>
      exists e, NullString.UnmarshalJSON v data = (v, Some e)
  end.
Proof.
  destruct data as [[| b | n | s | l | m]|]; cbn;
    try (eexists; reflexivity); try reflexivity.
  destruct (String.eqb s ""); reflexivity.
Qed.

(** The flags of an [OptionalNullableData] are only ever set. *)
Lemma OptionalNullableData_flags_kept {T : Type} `{Decodable T}
    (v : OptionalNullableData.t T) (data : RawMessage) :
  implb (OptionalNullableData.IsNull v)
        (OptionalNullableData.IsNull
           (fst (OptionalNullableData.UnmarshalJSON v data))) = true
  /\ implb (OptionalNullableData.IsNotUndefined v)
           (OptionalNullableData.IsNotUndefined
              (fst (OptionalNullableData.UnmarshalJSON v data))) = true.
Proof.
  unfold OptionalNullableData.UnmarshalJSON.
  destruct data as [j|]; cbn [nonempty OptionalNullableData.rawJson
                               OptionalNullableData.set_rawJson].
  - destruct (Unmarshal_ptr (Some j)) as [e|[x|]]; cbn;
      destruct (OptionalNullableData.IsNull v),
               (OptionalNullableData.IsNotUndefined v); split; reflexivity.
  - cbn. destruct (OptionalNullableData.IsNull v),
                  (OptionalNullableData.IsNotUndefined v); split; reflexivity.
Qed.

Lemma OptionalNullableData_null_member {T : Type} `{Decodable T}
    (is_field : string -> bool) (members : list (string * value))
    (v v' : OptionalNullableData.t T) :
  decode_member OptionalNullableData.UnmarshalJSON is_field members v
    = (v', None) ->
  (OptionalNullableData.IsNull v = true
   /\ OptionalNullableData.IsNotUndefined v = true
   \/ In Null (occurrences is_field members)) ->
  OptionalNullableData.IsNull v' = true
  /\ OptionalNullableData.IsNotUndefined v' = true.
Proof.
  revert v. unfold occurrences.
  induction members as [|[k j] rest IH]; intros v Hrun Hcase.
  - cbn in Hrun. injection Hrun as <-.
    destruct Hcase as [Hv|[]]. exact Hv.
  - cbn [decode_member] in Hrun. cbn [List.filter fst] in Hcase.
    destruct (is_field k) eqn:Hk; cbn [map snd In] in Hcase.
    + destruct (OptionalNullableData.UnmarshalJSON v (Some j))
        as [v1 [e|]] eqn:Hstep; [discriminate|].
      apply (IH v1 Hrun).
      destruct (OptionalNullableData_flags_kept v (Some j)) as [Hn Hd].
      rewrite Hstep in Hn, Hd. cbn [fst] in Hn, Hd.
      destruct Hcase as [[Hvn Hvd]|[Hj|Hin]].
      * left. rewrite Hvn in Hn. rewrite Hvd in Hd. split; assumption.
      * left. subst j. cbn in Hstep. injection Hstep as <-.
        split; reflexivity.
      * right. exact Hin.
    + apply (IH v Hrun). destruct Hcase as [Hv|Hin]; [left|right]; assumption.
Qed.

(** X3. Once a member that addresses an [OptionalNullableData] field is
    null, the field decodes to the null state whatever the members before
    and after it carry, provided the document decodes at all: no later
    value clears the flag [IsNull]. *)
Theorem OptionalNullableData_null_is_sticky {T : Type} `{Decodable T}
    (is_field : string -> bool) (members : list (string * value)) :
  In Null (occurrences is_field members) ->
  snd (OptionalNullableData.decode_field (T := T) is_field members) = None ->
  OptionalNullableData.state_of
    (fst (OptionalNullableData.decode_field (T := T) is_field members))
  = OptionalNullableData.IsNullState.
Proof.
  intros Hin Hok. unfold OptionalNullableData.decode_field in *.
  destruct (decode_member OptionalNullableData.UnmarshalJSON is_field
              members OptionalNullableData.zero_value) as [v' e] eqn:Hrun.
  cbn [fst snd] in *. subst e.
  destruct (OptionalNullableData_null_member _ _ _ _ Hrun (or_intror Hin))
    as [Hn Hd].
  unfold OptionalNullableData.state_of. rewrite Hn, Hd. reflexivity.
Qed.

Lemma OptionalNullableData_null_is_sticky_witness :
  In Null (occurrences is_f [("f", String "a"); ("f", Null); ("f", String "x")])
  /\ snd (OptionalNullableData.decode_field (T := string) is_f
            [("f", String "a"); ("f", Null); ("f", String "x")]) = None
  /\ OptionalNullableData.state_of
       (fst (OptionalNullableData.decode_field (T := string) is_f
               [("f", String "a"); ("f", Null); ("f", String "x")]))
     = OptionalNullableData.IsNullState.
Proof.
  split; [cbn; tauto|]. split; [reflexivity|].
  exact (OptionalNullableData_null_is_sticky (T := string) is_f
           [("f", String "a"); ("f", Null); ("f", String "x")]
           ltac:(cbn; tauto) eq_refl).
Defined.

(** X4. A call of [UnmarshalJSON] that fails never changes the value a
    wrapper holds. [OptionalData] also keeps its flag, so a field that
    failed to decode is not reported as present; [OptionalNullableData]
    has set [IsNotUndefined] before it tried to decode. *)
Theorem failed_decode_keeps_value {T : Type} `{Decodable T}
    (data : RawMessage) :
  (forall (v v' : OptionalData.t T) e,
     OptionalData.UnmarshalJSON v data = (v', Some e) ->
     OptionalData.Value v' = OptionalData.Value v
     /\ OptionalData.IsNotUndefined v' = OptionalData.IsNotUndefined v)
  /\ (forall (v v' : OptionalNullableData.t T) e,
        OptionalNullableData.UnmarshalJSON v data = (v', Some e) ->
        OptionalNullableData.Value v' = OptionalNullableData.Value v
        /\ OptionalNullableData.IsNull v' = OptionalNullableData.IsNull v
        /\ OptionalNullableData.IsNotUndefined v' = true).
Proof.
  split; intros v v' e.
  - unfold OptionalData.UnmarshalJSON.
    destruct data as [j|]; cbn [nonempty OptionalData.rawJson
                                 OptionalData.set_rawJson]; [|discriminate].
    destruct (Unmarshal_ptr (Some j)) as [err|[x|]]; intros E;
      try discriminate; injection E as <- _; split; reflexivity.
  - unfold OptionalNullableData.UnmarshalJSON.
    destruct data as [j|]; cbn [nonempty OptionalNullableData.rawJson
                                 OptionalNullableData.set_rawJson];
      [|discriminate].
    destruct (Unmarshal_ptr (Some j)) as [err|[x|]]; intros E;
      try discriminate; injection E as <- _; repeat split.
Qed.

Lemma failed_decode_keeps_value_witness :
  OptionalData.UnmarshalJSON (sent (T := string) (String "kept"))
    (Some (Number 1))
  = ({| OptionalData.IsNotUndefined := true;
        OptionalData.rawJson := Some (Number 1);
        OptionalData.Value := "kept" |},
     Some (UnmarshalTypeError "number" "string"))
  /\ OptionalData.Value
       {| OptionalData.IsNotUndefined := true;
          OptionalData.rawJson := Some (Number 1);
          OptionalData.Value := "kept" |}
     = OptionalData.Value (sent (T := string) (String "kept")).
Proof.
  split; [reflexivity|].
  exact (proj1
           (proj1 (failed_decode_keeps_value (T := string) (Some (Number 1)))
              (sent (String "kept")) _ _ eq_refl)).
Defined.

Lemma OptionalData_UnmarshalJSON_ok {T : Type} `{Decodable T}
    (v v1 : OptionalData.t T) (j : value) :
  OptionalData.UnmarshalJSON v (Some j) = (v1, None) ->
  j <> Null
  /\ exists x,
       decode j = inr x
       /\ OptionalData.IsNotUndefined v1 = true
       /\ OptionalData.Value v1 = x.
Proof.
  unfold OptionalData.UnmarshalJSON.
  cbn [nonempty OptionalData.rawJson OptionalData.set_rawJson].
  destruct j; cbn [Unmarshal_ptr]; try discriminate;
    (destruct (decode _) as [e|x] eqn:Hdec; [discriminate|]);
    intros E; injection E as <-;
    (split; [discriminate|]); exists x; repeat split.
Qed.

Lemma OptionalData_decode_member_last {T : Type} `{Decodable T}
    (is_field : string -> bool) (members : list (string * value))
    (v v' : OptionalData.t T) :
  decode_member OptionalData.UnmarshalJSON is_field members v = (v', None) ->
  match occurrences is_field members with
  | [] => v' = v
  | j :: js =>
      List.last (j :: js) Null <> Null
      /\ exists x,
           decode (List.last (j :: js) Null) = inr x
           /\ OptionalData.IsNotUndefined v' = true
           /\ OptionalData.Value v' = x
  end.
Proof.
  revert v. unfold occurrences.
  induction members as [|[k j] rest IH]; intros v Hrun.
  - cbn in Hrun. injection Hrun as <-. reflexivity.
  - cbn [decode_member] in Hrun. cbn [List.filter fst].
    destruct (is_field k) eqn:Hk; cbn [map snd].
    + destruct (OptionalData.UnmarshalJSON v (Some j)) as [v1 [e|]] eqn:Hstep;
        [discriminate|].
      apply OptionalData_UnmarshalJSON_ok in Hstep
        as (Hj & x & Hdec & Hflag & Hval).
      specialize (IH v1 Hrun).
      destruct (map snd (List.filter (fun kv => is_field (fst kv)) rest))
        as [|j' js] eqn:Hocc.
      * subst v'. cbn [List.last]. split; [exact Hj|]. exists x. auto.
      * change (List.last (j :: j' :: js) Null)
          with (List.last (j' :: js) Null).
        exact IH.
    + apply IH. exact Hrun.
Qed.

(** X5. When a document decodes into an [OptionalData] field, the field is
    undefined exactly when no member addresses it; otherwise it is present
    with the decoded value of the last such member, which is not null.
    A zero value that was sent (an empty string, false) is present, not
    undefined. *)
Theorem OptionalData_last_member_wins {T : Type} `{Decodable T}
    (is_field : string -> bool) (members : list (string * value))
    (v' : OptionalData.t T) :
  OptionalData.decode_field is_field members = (v', None) ->
  match occurrences is_field members with
  | [] => v' = OptionalData.zero_value
  | j :: js =>
      List.last (j :: js) Null <> Null
      /\ exists x,
           decode (List.last (j :: js) Null) = inr x
           /\ OptionalData.state_of v' = OptionalData.Present x
  end.
Proof.
  intros Hrun. unfold OptionalData.decode_field in Hrun.
  apply OptionalData_decode_member_last in Hrun.
  destruct (occurrences is_field members) as [|j js]; [exact Hrun|].
  destruct Hrun as (Hlast & x & Hdec & Hflag & Hval).
  split; [exact Hlast|]. exists x. split; [exact Hdec|].
  unfold OptionalData.state_of. rewrite Hflag, Hval. reflexivity.
Qed.

Lemma OptionalData_last_member_wins_witness :
  OptionalData.decode_field (T := bool) is_f
    [("f", Bool true); ("g", Null); ("f", Bool false)]
  = ({| OptionalData.IsNotUndefined := true;
        OptionalData.rawJson := Some (Bool false);
        OptionalData.Value := false |}, None)
  /\ exists x,
       decode (T := bool) (Bool false) = inr x
       /\ OptionalData.state_of
            {| OptionalData.IsNotUndefined := true;
               OptionalData.rawJson := Some (Bool false);
               OptionalData.Value := false |}
          = OptionalData.Present x.
Proof.
  split; [reflexivity|].
  exact (proj2
           (OptionalData_last_member_wins (T := bool) is_f
              [("f", Bool true); ("g", Null); ("f", Bool false)] _ eq_refl)).
Defined.

(** ** Looking an obligation up, and deactivating it *)

Lemma First_Obligation_unknown d tp :
  tp <> "" ->
  Forall (fun o => Obligation.Topic o <> tp) (obligations d) ->
  First_Obligation d tp = None.
Proof.
  intros Htp Hall. unfold First_Obligation.
  destruct (List.find _ (obligations d)) as [o|] eqn:Hfind; [|reflexivity].
  apply find_some in Hfind as [Hin Hcond].
  rewrite Forall_forall in Hall.
  apply list_elem_of_In in Hin. specialize (Hall o Hin).
  unfold cond_string in Hcond.
  apply String.eqb_neq in Htp. rewrite Htp in Hcond.
  apply String.eqb_eq in Hcond. contradiction.
Qed.

Lemma DeleteObligation_known d tp old :
  First_Obligation d tp = Some old ->
  DeleteObligation d tp
  = (set_obligations d
       (map (fun o =>
               if has_Id (Obligation.Id old) o
                  && cond_string tp (Obligation.Topic o)
               then Obligation.set_Active old false else o)
            (obligations d)),
     Status StatusNoContent).
Proof.
  intros Hold. unfold DeleteObligation. rewrite Hold.
  destruct (First_Obligation_In _ _ _ Hold) as [Hin Hcond].
  unfold Save. cbn [Obligation.set_Active Obligation.Id].
  replace (existsb _ (obligations d)) with true; [reflexivity|].
  symmetry. apply existsb_exists. exists old. split; [exact Hin|].
  unfold has_Id. rewrite Z.eqb_refl, Hcond. reflexivity.
Qed.

Lemma First_Obligation_deactivated rows tp old :
  List.find (fun o => cond_string tp (Obligation.Topic o)) rows = Some old ->
  List.find (fun o => cond_string tp (Obligation.Topic o))
    (map (fun o =>
            if has_Id (Obligation.Id old) o
               && cond_string tp (Obligation.Topic o)
            then Obligation.set_Active old false else o) rows)
  = Some (Obligation.set_Active old false).
Proof.
  induction rows as [|o rows IH]; cbn [List.find map]; [discriminate|].
  destruct (cond_string tp (Obligation.Topic o)) eqn:Ho.
  - intros E. injection E as ->.
    unfold has_Id. rewrite Z.eqb_refl. cbn [andb].
    cbn [Obligation.set_Active Obligation.Topic]. rewrite Ho. reflexivity.
  - rewrite andb_false_r, Ho. exact IH.
Qed.

(** X6. [GetObligation] with a non-empty topic answers 200 exactly when a
    stored row has that topic, with a stored row of that topic as its only
    datum, and 404 otherwise. It does not look at the flag [Active]. *)
Theorem GetObligation_serves_stored_row d tp :
  tp <> "" ->
  if existsb (fun o => String.eqb (Obligation.Topic o) tp) (obligations d)
  then exists o,
         GetObligation d tp = ok_response StatusOK o
         /\ In o (obligations d)
         /\ Obligation.Topic o = tp
  else GetObligation d tp = not_found tp.
Proof.
  intros Htp. unfold GetObligation.
  destruct (existsb _ (obligations d)) eqn:Hex.
  - apply existsb_exists in Hex as (o' & Hin' & Heq').
    destruct (First_Obligation d tp) as [o|] eqn:Hfirst.
    + exists o. split; [reflexivity|].
      destruct (First_Obligation_In _ _ _ Hfirst) as [Hin Hcond].
      split; [exact Hin|].
      unfold cond_string in Hcond. apply String.eqb_neq in Htp.
      rewrite Htp in Hcond. apply String.eqb_eq. exact Hcond.
    + exfalso. unfold First_Obligation in Hfirst.
      apply (find_none _ _ Hfirst) in Hin'.
      unfold cond_string in Hin'. apply String.eqb_neq in Htp.
      rewrite Htp in Hin'. congruence.
  - rewrite First_Obligation_unknown; [reflexivity|exact Htp|].
    apply Forall_forall. intros o Hin Heq.
    apply list_elem_of_In in Hin.
    assert (Hcontra : existsb (fun o => String.eqb (Obligation.Topic o) tp)
                        (obligations d) = true).
    { apply existsb_exists. exists o. split; [exact Hin|].
      apply String.eqb_eq. exact Heq. }
    congruence.
Qed.

Lemma GetObligation_serves_stored_row_witness :
  "T1" <> ""
  /\ exists o,
       GetObligation sample_db "T1" = ok_response StatusOK o
       /\ In o (obligations sample_db)
       /\ Obligation.Topic o = "T1".
Proof.
  split; [discriminate|].
  exact (GetObligation_serves_stored_row sample_db "T1" ltac:(discriminate)).
Defined.

(** X7. A deactivated obligation is still served: after [DeleteObligation]
    of a known topic, [GetObligation] of that topic answers 200 with the
    row as it was loaded, its flag [Active] cleared. *)
Theorem deactivated_obligation_is_served d tp old :
  First_Obligation d tp = Some old ->
  snd (DeleteObligation d tp) = Status StatusNoContent
  /\ GetObligation (fst (DeleteObligation d tp)) tp
     = ok_response StatusOK (Obligation.set_Active old false).
Proof.
  intros Hold. rewrite (DeleteObligation_known _ _ _ Hold). cbn [fst snd].
  split; [reflexivity|].
  unfold GetObligation, First_Obligation. cbn [obligations set_obligations].
  rewrite (First_Obligation_deactivated _ _ _ Hold). reflexivity.
Qed.

Lemma deactivated_obligation_is_served_witness :
  First_Obligation sample_db "T1" = Some hello_row
  /\ GetObligation (fst (DeleteObligation sample_db "T1")) "T1"
     = ok_response StatusOK (Obligation.set_Active hello_row false).
Proof.
  split; [reflexivity|].
  exact (proj2 (deactivated_obligation_is_served sample_db "T1" hello_row
                  eq_refl)).
Defined.

(** X8. Deactivation is idempotent: deactivating a known topic a second
    time answers 204 again and leaves the database the first call made. *)
Theorem DeleteObligation_idempotent d tp old :
  First_Obligation d tp = Some old ->
  DeleteObligation (fst (DeleteObligation d tp)) tp
  = DeleteObligation d tp.
Proof.
  intros Hold. rewrite (DeleteObligation_known _ _ _ Hold). cbn [fst].
  destruct (First_Obligation_In _ _ _ Hold) as [_ Hcond].
  set (old' := Obligation.set_Active old false).
  set (rows' := map _ (obligations d)).
  assert (Hold' : First_Obligation (set_obligations d rows') tp = Some old').
  { unfold First_Obligation. cbn [obligations set_obligations].
    apply First_Obligation_deactivated. exact Hold. }
  rewrite (DeleteObligation_known _ _ _ Hold').
  cbn [obligations set_obligations]. f_equal.
  unfold set_obligations. cbn. f_equal.
  subst rows'. rewrite map_map. apply map_ext. intros o.
  change (Obligation.Id old') with (Obligation.Id old).
  change (Obligation.set_Active old' false) with old'.
  destruct (has_Id (Obligation.Id old) o
            && cond_string tp (Obligation.Topic o)) eqn:Hhit.
  - unfold has_Id. cbn [old' Obligation.set_Active Obligation.Id
                         Obligation.Topic].
    rewrite Z.eqb_refl, Hcond. reflexivity.
  - rewrite Hhit. reflexivity.
Qed.

Lemma DeleteObligation_idempotent_witness :
  First_Obligation sample_db "T1" = Some hello_row
  /\ DeleteObligation (fst (DeleteObligation sample_db "T1")) "T1"
     = DeleteObligation sample_db "T1".
Proof.
  split; [reflexivity|].
  exact (DeleteObligation_idempotent sample_db "T1" hello_row eq_refl).
Defined.

(** X9. With a unique primary key, deactivating a known topic clears the
    flag [Active] of the row that was loaded and changes nothing else:
    every other column of that row, every other row, and every other
    table stay as they were. *)
Theorem DeleteObligation_changes_only_Active d tp old :
  NoDup (map Obligation.Id (obligations d)) ->
  First_Obligation d tp = Some old ->
  fst (DeleteObligation d tp)
  = set_obligations d
      (map (fun o => if has_Id (Obligation.Id old) o
                     then Obligation.set_Active o false else o)
           (obligations d)).
Proof.
  intros Hnd Hold. rewrite (DeleteObligation_known _ _ _ Hold). cbn [fst].
  f_equal. apply map_ext_in. intros o Ho.
  destruct (First_Obligation_In _ _ _ Hold) as [Hin Hcond].
  destruct (has_Id (Obligation.Id old) o) eqn:Hid; [|reflexivity].
  rewrite (same_Id_same_row _ _ _ Hnd Ho Hin Hid).
  rewrite Hcond. reflexivity.
Qed.

Lemma DeleteObligation_changes_only_Active_witness :
  NoDup (map Obligation.Id (obligations sample_db))
  /\ First_Obligation sample_db "T1" = Some hello_row
  /\ fst (DeleteObligation sample_db "T1")
     = set_obligations sample_db [Obligation.set_Active hello_row false].
Proof.
  split; [exact (proj1 sample_db_consistent)|]. split; [reflexivity|].
  exact (DeleteObligation_changes_only_Active sample_db "T1" hello_row
           (proj1 sample_db_consistent) eq_refl).
Defined.

(** ** Creating an obligation *)

Lemma create_links_frame d obligation shortnames :
  obligations (create_links d obligation shortnames) = obligations d
  /\ users (create_links d obligation shortnames) = users d
  /\ licenses (create_links d obligation shortnames) = licenses d
  /\ audits (create_links d obligation shortnames) = audits d.
Proof.
  unfold create_links. revert d.
  induction shortnames as [|i rest IH]; intros d; [repeat split|].
  cbn [fold_left].
  match goal with
  | |- context [fold_left ?f rest ?d1] => specialize (IH d1)
  end.
  destruct IH as (H1 & H2 & H3 & H4).
  rewrite H1, H2, H3, H4.
  unfold Create_ObligationMap.
  destruct (existsb _ (licenses d)); repeat split.
Qed.

Lemma Id_below_next rows o :
  In o rows -> Obligation.Id o < next_Id rows.
Proof.
  unfold next_Id. induction rows as [|r rows IH]; [intros []|].
  cbn [map fold_right]. intros [->|Hin].
  - lia.
  - specialize (IH Hin). lia.
Qed.

Section CreateRun.
Context {md5 : MD5}.

(** The handler, by what [FirstOrCreate] meets in the table. *)
Lemma CreateObligation_run d input :
  CreateObligation d (inr input)
  = match List.find
            (where_Topic_or_Md5
               (ObligationPOSTRequestJSONSchema.Topic input)
               (md5_hex (ObligationPOSTRequestJSONSchema.Text input)))
            (obligations d) with
    | Some found => (d, conflict_answer found)
    | None =>
        if existsb
             (fun o =>
                String.eqb (Obligation.Topic o)
                  (ObligationPOSTRequestJSONSchema.Topic input)
                || String.eqb (Obligation.Md5 o)
                     (md5_hex (ObligationPOSTRequestJSONSchema.Text input)))
             (obligations d)
        then
          (d, conflict_answer
                (Obligation.set_Id (created_row d input) 0))
        else
          (create_links
             (set_obligations d
                (append (obligations d) (created_row d input)))
             (created_row d input)
             (ObligationPOSTRequestJSONSchema.Shortnames input),
           ok_response StatusCreated (created_row d input))
    end.
Proof.
  unfold CreateObligation, FirstOrCreate. cbv zeta.
  cbn [Obligation.Topic Obligation.Md5].
  destruct (List.find _ (obligations d)) as [found|].
  - cbn [Z.eqb]. unfold conflict_answer.
    destruct (slice (Obligation.Text found) 0 10); reflexivity.
  - unfold Create_Obligation. cbn [Obligation.Topic Obligation.Md5].
    destruct (existsb _ (obligations d)).
    + cbn [Z.eqb]. unfold conflict_answer.
      cbn [Obligation.Text Obligation.set_Id created_row Obligation.Topic].
      destruct (slice (ObligationPOSTRequestJSONSchema.Text input) 0 10);
        reflexivity.
    + reflexivity.
Qed.

Lemma no_row_matches d topic digest :
  digest <> "" ->
  Forall (fun o => Obligation.Topic o <> topic /\ Obligation.Md5 o <> digest)
         (obligations d) ->
  List.find (where_Topic_or_Md5 topic digest) (obligations d) = None
  /\ existsb (fun o => String.eqb (Obligation.Topic o) topic
                       || String.eqb (Obligation.Md5 o) digest)
             (obligations d) = false.
Proof.
  intros Hdigest Hall.
  assert (Hrow : forall o, In o (obligations d) ->
            String.eqb (Obligation.Topic o) topic = false
            /\ String.eqb (Obligation.Md5 o) digest = false).
  { intros o Hin. rewrite Forall_forall in Hall.
    apply list_elem_of_In in Hin. destruct (Hall o Hin) as [Ht Hm].
    split; apply String.eqb_neq; assumption. }
  split.
  - destruct (List.find _ (obligations d)) as [o|] eqn:Hfind; [|reflexivity].
    apply find_some in Hfind as [Hin Hw].
    destruct (Hrow o Hin) as [Ht Hm].
    unfold where_Topic_or_Md5 in Hw. rewrite Ht, Hm in Hw.
    apply String.eqb_neq in Hdigest. rewrite Hdigest in Hw.
    destruct (String.eqb topic ""); discriminate.
  - destruct (existsb _ (obligations d)) eqn:Hex; [|reflexivity].
    apply existsb_exists in Hex as (o & Hin & Ho).
    destruct (Hrow o Hin) as [Ht Hm]. rewrite Ht, Hm in Ho. discriminate.
Qed.

(** X10. A create request whose topic and whose digest no stored row has
    is answered 201 with the row built from the request: the digest of its
    text, [TextUpdatable] false whatever the request, and a primary key
    above every stored one. The row is appended to the table; the stored
    rows, the users and the audit records stay as they were. *)
Theorem CreateObligation_fresh d input :
  md5_hex (ObligationPOSTRequestJSONSchema.Text input) <> "" ->
  Forall (fun o =>
            Obligation.Topic o <> ObligationPOSTRequestJSONSchema.Topic input
            /\ Obligation.Md5 o
               <> md5_hex (ObligationPOSTRequestJSONSchema.Text input))
         (obligations d) ->
  snd (CreateObligation d (inr input))
    = ok_response StatusCreated (created_row d input)
  /\ obligations (fst (CreateObligation d (inr input)))
     = append (obligations d) (created_row d input)
  /\ Forall (fun o => Obligation.Id o < Obligation.Id (created_row d input))
            (obligations d)
  /\ users (fst (CreateObligation d (inr input))) = users d
  /\ audits (fst (CreateObligation d (inr input))) = audits d.
Proof.
  intros Hdigest Hall.
  destruct (no_row_matches d _ _ Hdigest Hall) as [Hfind Hex].
  rewrite CreateObligation_run, Hfind, Hex. cbn [fst snd].
  destruct (create_links_frame
              (set_obligations d
                 (append (obligations d) (created_row d input)))
              (created_row d input)
              (ObligationPOSTRequestJSONSchema.Shortnames input))
    as (H1 & H2 & _ & H4).
  rewrite H1, H2, H4. repeat split.
  apply Forall_forall. intros o Hin. apply list_elem_of_In in Hin.
  exact (Id_below_next _ _ Hin).
Qed.

(** X11. A create request that meets a stored row with its topic or its
    digest inserts nothing, and its answer is decided by the text of the
    stored row: 409, naming the topic and the first ten bytes of the
    stored row, when that text has ten bytes or more, and a run-time panic
    when it is shorter. *)
Theorem CreateObligation_conflict_outcome d input found :
  List.find
    (where_Topic_or_Md5 (ObligationPOSTRequestJSONSchema.Topic input)
       (md5_hex (ObligationPOSTRequestJSONSchema.Text input)))
    (obligations d) = Some found ->
  CreateObligation d (inr input)
  = (d,
     if (10 <=? String.length (Obligation.Text found))%nat
     then
       JSON_LicenseError StatusConflict
         {| LicenseError.Status := StatusConflict;
            LicenseError.Message :=
              "can not create obligation with same topic or text";
            LicenseError.Error :=
              "Error: Obligation with topic '"
                ++ Obligation.Topic found ++ "' or Text '"
                ++ String.substring 0 10 (Obligation.Text found)
                ++ "'... already exists" |}
     else Panic "runtime error: slice bounds out of range").
Proof.
  intros Hfound. rewrite CreateObligation_run, Hfound.
  unfold conflict_answer, slice.
  destruct (10 <=? String.length (Obligation.Text found))%nat; reflexivity.
Qed.

(** X12. [CreateObligation] never answers 500: the test
    [result.RowsAffected == 0] comes before the test of [result.Error], and
    a [FirstOrCreate] that failed has affected no row, so a storage error
    is reported as a conflict. The answers are 400, 409, 201 or a panic. *)
Theorem CreateObligation_never_500 d body :
  status_of (snd (CreateObligation d body)) <> Some StatusInternalServerError
  /\ (status_of (snd (CreateObligation d body)) = Some StatusBadRequest
      \/ status_of (snd (CreateObligation d body)) = Some StatusConflict
      \/ status_of (snd (CreateObligation d body)) = Some StatusCreated
      \/ status_of (snd (CreateObligation d body)) = None).
Proof.
  assert (Hcases :
    status_of (snd (CreateObligation d body)) = Some StatusBadRequest
    \/ status_of (snd (CreateObligation d body)) = Some StatusConflict
    \/ status_of (snd (CreateObligation d body)) = Some StatusCreated
    \/ status_of (snd (CreateObligation d body)) = None).
  { destruct body as [err|input]; [left; reflexivity|].
    rewrite CreateObligation_run.
    destruct (List.find _ (obligations d)) as [found|].
    - unfold conflict_answer. cbn [snd].
      destruct (slice _ 0 10); cbn; auto.
    - destruct (existsb _ (obligations d)); cbn [snd].
      + unfold conflict_answer. destruct (slice _ 0 10); cbn; auto.
      + cbn. auto. }
  split; [|exact Hcases].
  destruct Hcases as [E|[E|[E|E]]]; rewrite E; discriminate.
Qed.

(** X13. [CreateObligation] keeps the keys of the obligations table
    unique: after any request the primary keys, the topics and the digests
    of the stored rows are still pairwise different. *)
Theorem CreateObligation_keeps_keys_unique d body :
  keys_unique d -> keys_unique (fst (CreateObligation d body)).
Proof.
  intros (Hid & Htopic & Hmd5).
  destruct body as [err|input]; [repeat split; assumption|].
  rewrite CreateObligation_run.
  destruct (List.find _ (obligations d)) as [found|];
    [repeat split; assumption|].
  destruct (existsb _ (obligations d)) eqn:Hex;
    [repeat split; assumption|].
  cbn [fst]. unfold keys_unique.
  destruct (create_links_frame
              (set_obligations d
                 (append (obligations d) (created_row d input)))
              (created_row d input)
              (ObligationPOSTRequestJSONSchema.Shortnames input))
    as (-> & _).
  cbn [obligations set_obligations]. unfold append. rewrite !map_app.
  cbn [map].
  assert (Hrow : forall o, In o (obligations d) ->
            Obligation.Topic o <> Obligation.Topic (created_row d input)
            /\ Obligation.Md5 o <> Obligation.Md5 (created_row d input)).
  { intros o Hin.
    assert (Ho := existsb_exists
                    (fun o => String.eqb (Obligation.Topic o)
                                (ObligationPOSTRequestJSONSchema.Topic input)
                              || String.eqb (Obligation.Md5 o)
                                   (md5_hex
                                      (ObligationPOSTRequestJSONSchema.Text
                                         input)))
                    (obligations d)).
    split; intros E; apply not_true_iff_false in Hex; apply Hex;
      apply Ho; exists o; (split; [exact Hin|]);
      cbn [created_row Obligation.Topic Obligation.Md5] in E; rewrite E;
      rewrite String.eqb_refl; [reflexivity|apply orb_true_r]. }
  repeat split; apply NoDup_app; (split; [assumption|]);
    (split; [|apply NoDup_singleton]);
    intros x Hx Hnew; apply list_elem_of_In in Hx;
    apply in_map_iff in Hx as (o & <- & Hin);
    apply list_elem_of_singleton in Hnew.
  - pose proof (Id_below_next _ _ Hin) as Hlt.
    cbn [created_row Obligation.Id] in Hnew. lia.
  - exact (proj1 (Hrow o Hin) Hnew).
  - exact (proj2 (Hrow o Hin) Hnew).
Qed.

End CreateRun.

Lemma CreateObligation_fresh_witness :
  md5_hex (MD5 := sample_md5)
    (ObligationPOSTRequestJSONSchema.Text fresh_request) <> ""
  /\ Forall (fun o =>
               Obligation.Topic o
                 <> ObligationPOSTRequestJSONSchema.Topic fresh_request
               /\ Obligation.Md5 o
                  <> md5_hex (MD5 := sample_md5)
                       (ObligationPOSTRequestJSONSchema.Text fresh_request))
            (obligations sample_db)
  /\ snd (CreateObligation (md5 := sample_md5) sample_db (inr fresh_request))
     = ok_response StatusCreated
         (created_row (md5 := sample_md5) sample_db fresh_request)
  /\ Obligation.Id (created_row (md5 := sample_md5) sample_db fresh_request)
     = 2.
Proof.
  assert (H1 : md5_hex (MD5 := sample_md5)
                 (ObligationPOSTRequestJSONSchema.Text fresh_request) <> "")
    by discriminate.
  assert (H2 : Forall (fun o =>
               Obligation.Topic o
                 <> ObligationPOSTRequestJSONSchema.Topic fresh_request
               /\ Obligation.Md5 o
                  <> md5_hex (MD5 := sample_md5)
                       (ObligationPOSTRequestJSONSchema.Text fresh_request))
            (obligations sample_db))
    by (repeat constructor; discriminate).
  split; [exact H1|]. split; [exact H2|].
  split; [|reflexivity].
  exact (proj1 (CreateObligation_fresh (md5 := sample_md5) sample_db
                  fresh_request H1 H2)).
Defined.

Lemma CreateObligation_conflict_outcome_witness :
  List.find
    (where_Topic_or_Md5
       (ObligationPOSTRequestJSONSchema.Topic same_topic_request)
       (md5_hex (MD5 := sample_md5)
          (ObligationPOSTRequestJSONSchema.Text same_topic_request)))
    (obligations notices_db) = Some notices_row
  /\ CreateObligation (md5 := sample_md5) notices_db (inr same_topic_request)
     = (notices_db,
        JSON_LicenseError StatusConflict
          {| LicenseError.Status := StatusConflict;
             LicenseError.Message :=
               "can not create obligation with same topic or text";
             LicenseError.Error :=
               "Error: Obligation with topic 'T1' or Text 'Keep the n'"
                 ++ "... already exists" |}).
Proof.
  split; [reflexivity|].
  exact (CreateObligation_conflict_outcome (md5 := sample_md5) notices_db
           same_topic_request notices_row eq_refl).
Defined.

Lemma sample_db_keys_unique : keys_unique sample_db.
Proof. repeat split; apply NoDup_singleton. Qed.

Lemma CreateObligation_keeps_keys_unique_witness :
  keys_unique sample_db
  /\ keys_unique
       (fst (CreateObligation (md5 := sample_md5) sample_db
               (inr fresh_request)))
  /\ length
       (obligations
          (fst (CreateObligation (md5 := sample_md5) sample_db
                  (inr fresh_request)))) = 2%nat.
Proof.
  split; [exact sample_db_keys_unique|]. split; [|reflexivity].
  exact (CreateObligation_keeps_keys_unique (md5 := sample_md5) sample_db
           (inr fresh_request) sample_db_keys_unique).
Defined.

(** ** Updating an obligation *)

Section UpdateFurther.
Context {md5 : MD5}.

Lemma Id_patched old updates o :
  Obligation.Id (patched old updates o) = Obligation.Id o.
Proof. reflexivity. Qed.

Lemma Topic_patched old updates o :
  Obligation.Topic (patched old updates o) = Obligation.Topic o.
Proof. reflexivity. Qed.

Lemma set_obligations_same d : set_obligations d (obligations d) = d.
Proof. destruct d; reflexivity. Qed.

(** The database a handled update leaves, whatever the request. *)
Lemma UpdateObligation_database d username tp body now :
  fst (UpdateObligation d username tp body now) = d
  \/ exists old updates rows,
       First_Obligation d tp = Some old
       /\ body = inr updates
       /\ rows = map (fun o => if has_Id (Obligation.Id old) o
                               then patched old updates o else o)
                     (obligations d)
       /\ (fst (UpdateObligation d username tp body now)
           = set_obligations d rows
           \/ exists a,
                fst (UpdateObligation d username tp body now)
                = set_audits (set_obligations d rows) (append (audits d) a)).
Proof.
  destruct (First_Obligation d tp) as [old|] eqn:Hold.
  2:{ left. unfold UpdateObligation, Transaction, UpdateObligation_tx.
      rewrite Hold. reflexivity. }
  rewrite (UpdateObligation_known _ _ _ _ _ _ Hold).
  destruct body as [err|updates]; [left; reflexivity|].
  destruct (newObligationMap_of old updates) as [er|m] eqn:Hm;
    [left; reflexivity|].
  assert (Hrows :
    map (fun o => if has_Id (Obligation.Id old) o then assign m o else o)
        (obligations d)
    = map (fun o => if has_Id (Obligation.Id old) o
                    then patched old updates o else o) (obligations d)).
  { apply map_ext. intros o.
    rewrite (assign_newObligationMap _ _ _ o Hm). reflexivity. }
  destruct (Nat.eqb (size m) 0) eqn:Hsize.
  - destruct (First_User d username) as [user|]; [|left; reflexivity].
    right. exists old, updates. eexists.
    split; [reflexivity|]. split; [reflexivity|]. split; [reflexivity|].
    rewrite <- Hrows.
    assert (Hsame :
      map (fun o => if has_Id (Obligation.Id old) o then assign m o else o)
          (obligations d) = obligations d).
    { rewrite <- (map_id (obligations d)) at 2.
      apply map_ext. intros o. rewrite (assign_nothing m o Hsize).
      destruct (has_Id _ o); reflexivity. }
    rewrite Hsame, set_obligations_same. cbv zeta. cbn [fst].
    destruct (negb _); [right; eexists; reflexivity|left; reflexivity].
  - destruct (Z.eqb (Obligation.Id old) 0) eqn:Hid; [left; reflexivity|].
    destruct (First_User d username) as [user|]; [|left; reflexivity].
    right. exists old, updates. eexists.
    split; [reflexivity|]. split; [reflexivity|]. split; [reflexivity|].
    cbv zeta. cbn [fst]. rewrite Hrows.
    destruct (negb _); [right; eexists; reflexivity|left; reflexivity].
Qed.

(** X14. What [UpdateObligation] never touches: whatever the request and
    its outcome, the users, the licenses and the links stay as they were,
    no row is added or removed, no row changes its primary key or its
    topic, and the audit records are the old ones with at most one record
    appended. *)
Theorem UpdateObligation_frame d username tp body now :
  users (fst (UpdateObligation d username tp body now)) = users d
  /\ licenses (fst (UpdateObligation d username tp body now)) = licenses d
  /\ obligation_maps (fst (UpdateObligation d username tp body now))
     = obligation_maps d
  /\ map Obligation.Id
       (obligations (fst (UpdateObligation d username tp body now)))
     = map Obligation.Id (obligations d)
  /\ map Obligation.Topic
       (obligations (fst (UpdateObligation d username tp body now)))
     = map Obligation.Topic (obligations d)
  /\ (audits (fst (UpdateObligation d username tp body now)) = audits d
      \/ exists a,
           audits (fst (UpdateObligation d username tp body now))
           = append (audits d) a).
Proof.
  destruct (UpdateObligation_database d username tp body now)
    as [->|(old & updates & rows & _ & _ & Hrows & Hd')].
  { repeat split. left. reflexivity. }
  assert (Hid : map Obligation.Id rows = map Obligation.Id (obligations d)).
  { subst rows. rewrite map_map. apply map_ext. intros o.
    destruct (has_Id _ o); reflexivity. }
  assert (Htopic :
    map Obligation.Topic rows = map Obligation.Topic (obligations d)).
  { subst rows. rewrite map_map. apply map_ext. intros o.
    destruct (has_Id _ o); reflexivity. }
  destruct Hd' as [->|[a ->]]; cbn [users licenses obligation_maps audits
                                     obligations set_obligations set_audits];
    repeat split; try assumption.
  - left. reflexivity.
  - right. exists a. reflexivity.
Qed.

(** X15. A type or a classification that is sent as the empty string is
    refused: when the text guard lets the request pass, an empty type is
    answered 400 "Type cannot be an empty string", and, the type being
    acceptable, an empty classification is answered 400 "Classification
    cannot be an empty string"; the database stays as it was. *)
Theorem empty_type_or_classification_refused d username tp updates now old :
  First_Obligation d tp = Some old ->
  OptionalData.Value (ObligationPATCHRequestJSONSchema.Text updates) = ""
  \/ Obligation.TextUpdatable old = true
  \/ OptionalData.Value (ObligationPATCHRequestJSONSchema.Text updates)
     = Obligation.Text old ->
  (OptionalData.state_of (ObligationPATCHRequestJSONSchema.Type_ updates)
     = OptionalData.Present "" ->
   UpdateObligation d username tp (inr updates) now
   = (d, bad_request "Type cannot be an empty string"))
  /\ (OptionalData.state_of (ObligationPATCHRequestJSONSchema.Type_ updates)
        <> OptionalData.Present "" ->
      OptionalData.state_of
        (ObligationPATCHRequestJSONSchema.Classification updates)
        = OptionalData.Present "" ->
      UpdateObligation d username tp (inr updates) now
      = (d, bad_request "Classification cannot be an empty string")).
Proof.
  intros Hold Hguard.
  assert (Hg :
    negb (String.eqb
            (OptionalData.Value
               (ObligationPATCHRequestJSONSchema.Text updates)) "")
    && negb (Obligation.TextUpdatable old)
    && negb (String.eqb
               (OptionalData.Value
                  (ObligationPATCHRequestJSONSchema.Text updates))
               (Obligation.Text old)) = false).
  { destruct Hguard as [E|[E|E]]; rewrite E.
    - reflexivity.
    - cbn [negb]. rewrite andb_false_r. reflexivity.
    - rewrite String.eqb_refl. cbn [negb]. apply andb_false_r. }
  rewrite (UpdateObligation_known _ _ _ _ _ _ Hold).
  split.
  - intros Hty. apply state_of_Present in Hty as [Hty1 Hty2].
    unfold newObligationMap_of. cbv zeta.
    rewrite Hg, Hty1, Hty2. reflexivity.
  - intros Hty Hcl. apply state_of_Present in Hcl as [Hcl1 Hcl2].
    assert (Hty' :
      OptionalData.IsNotUndefined
        (ObligationPATCHRequestJSONSchema.Type_ updates)
      && String.eqb
           (OptionalData.Value
              (ObligationPATCHRequestJSONSchema.Type_ updates)) "" = false).
    { destruct (OptionalData.IsNotUndefined
                  (ObligationPATCHRequestJSONSchema.Type_ updates))
        eqn:Hflag; [|reflexivity].
      destruct (String.eqb
                  (OptionalData.Value
                     (ObligationPATCHRequestJSONSchema.Type_ updates)) "")
        eqn:Hval; [|reflexivity].
      exfalso. apply Hty. apply String.eqb_eq in Hval.
      unfold OptionalData.state_of. rewrite Hflag, Hval. reflexivity. }
    unfold newObligationMap_of. cbv zeta.
    rewrite Hg, Hty', Hcl1, Hcl2. reflexivity.
Qed.

(** X16. The update is atomic with its audit preparation: when the request
    passes validation but the acting user is not a stored user, the answer
    is 500 "Failed to update license" and the row update that had already
    run is rolled back with the transaction. *)
Theorem UpdateObligation_unknown_user d username tp updates now old m :
  First_Obligation d tp = Some old ->
  newObligationMap_of old updates = inr m ->
  First_User d username = None ->
  exists err,
    UpdateObligation d username tp (inr updates) now
    = (d, failed_to_update err).
Proof.
  intros Hold Hm Huser.
  rewrite (UpdateObligation_known _ _ _ _ _ _ Hold), Hm, Huser.
  destruct (Nat.eqb (size m) 0); [eexists; reflexivity|].
  destruct (Z.eqb (Obligation.Id old) 0); eexists; reflexivity.
Qed.

(** X17. With a unique primary key, a successful update stores the row it
    loaded with exactly the columns the request provides replaced (the
    text and its digest only when the text is accepted) in the place of
    the loaded row, and leaves every other row alone. When the request
    sets a column, the row returned is that stored row, with the primary
    key and the topic of the loaded row. When it sets none, the table is
    unchanged and the row returned is the zero row that carries the
    primary key only. *)
Theorem UpdateObligation_applies_provided_fields
    d username tp updates now old d' new :
  NoDup (map Obligation.Id (obligations d)) ->
  First_Obligation d tp = Some old ->
  UpdateObligation d username tp (inr updates) now
    = (d', ok_response StatusOK new) ->
  Obligation.Id new = Obligation.Id old
  /\ obligations d'
     = map (fun o => if has_Id (Obligation.Id old) o
                     then patched old updates old else o)
           (obligations d)
  /\ (if sets_a_column old updates
      then new = patched old updates old
           /\ Obligation.Topic new = Obligation.Topic old
      else new = Obligation.set_Id Obligation.zero_value (Obligation.Id old)
           /\ obligations d' = obligations d).
Proof.
  intros Hnd Hold Hrun.
  destruct (UpdateObligation_ok _ _ _ _ _ _ _ _ Hold Hrun)
    as (m & r & user & Hm & _ & Hr & Hnew & Hrows & _).
  destruct (First_Obligation_In _ _ _ Hold) as [Hin _].
  rewrite (find_has_Id_unique _ _ Hnd Hin) in Hr. injection Hr as <-.
  pose proof (size_newObligationMap _ _ _ Hm) as Hsize.
  assert (Hstored :
    obligations d'
    = map (fun o => if has_Id (Obligation.Id old) o
                    then patched old updates old else o) (obligations d)).
  { rewrite Hrows. apply map_ext_in. intros o Ho.
    destruct (has_Id (Obligation.Id old) o) eqn:Hid; [|reflexivity].
    rewrite (same_Id_same_row _ _ _ Hnd Ho Hin Hid). reflexivity. }
  destruct (sets_a_column old updates); cbn [negb] in Hsize;
    rewrite Hsize in Hnew; subst new.
  - repeat split. exact Hstored.
  - repeat split; [exact Hstored|].
    rewrite Hrows. rewrite <- (map_id (obligations d)) at 2.
    apply map_ext. intros o.
    rewrite <- (assign_newObligationMap _ _ _ o Hm).
    rewrite (assign_nothing m o Hsize).
    destruct (has_Id _ o); reflexivity.
Qed.

(** X18. [UpdateObligation] keeps the table consistent: if the primary key
    is unique and every comment stored as NULL holds the empty string,
    the same is true after any request, accepted or not. *)
Theorem UpdateObligation_keeps_db_consistent d username tp body now :
  db_consistent d ->
  db_consistent (fst (UpdateObligation d username tp body now)).
Proof.
  intros [Hnd Hstored].
  destruct (UpdateObligation_database d username tp body now)
    as [->|(old & updates & rows & _ & _ & Hrows & Hd')];
    [split; assumption|].
  assert (Hids : map Obligation.Id rows = map Obligation.Id (obligations d)).
  { subst rows. rewrite map_map. apply map_ext. intros o.
    destruct (has_Id _ o); reflexivity. }
  split.
  { destruct Hd' as [->|[a ->]];
      cbn [obligations set_obligations set_audits];
      rewrite Hids; exact Hnd. }
  assert (Hall : Forall comment_as_stored rows).
  { subst rows. rewrite Forall_forall in Hstored.
    apply Forall_forall. intros x Hx. apply list_elem_of_In in Hx.
    apply in_map_iff in Hx as (o & <- & Ho).
    apply list_elem_of_In in Ho. specialize (Hstored o Ho).
    destruct (has_Id _ o); [|exact Hstored].
    unfold comment_as_stored, patched, comment_of in *.
    cbn [Obligation.Comment].
    destruct (OptionalNullableData.IsNotUndefined _); [|exact Hstored].
    destruct (OptionalNullableData.IsNull _); cbn; [reflexivity|discriminate]. }
  destruct Hd' as [->|[a ->]]; exact Hall.
Qed.

End UpdateFurther.

Lemma empty_type_or_classification_refused_witness :
  (First_Obligation sample_db "T1" = Some hello_row
   /\ OptionalData.Value
        (ObligationPATCHRequestJSONSchema.Text empty_type_patch) = ""
   /\ OptionalData.state_of
        (ObligationPATCHRequestJSONSchema.Type_ empty_type_patch)
      = OptionalData.Present ""
   /\ UpdateObligation (md5 := sample_md5) sample_db "alice" "T1"
        (inr empty_type_patch) 1000
      = (sample_db, bad_request "Type cannot be an empty string"))
  /\ (OptionalData.state_of
        (ObligationPATCHRequestJSONSchema.Type_ empty_classification_patch)
      <> OptionalData.Present ""
      /\ OptionalData.state_of
           (ObligationPATCHRequestJSONSchema.Classification
              empty_classification_patch)
         = OptionalData.Present ""
      /\ UpdateObligation (md5 := sample_md5) sample_db "alice" "T1"
           (inr empty_classification_patch) 1000
         = (sample_db,
            bad_request "Classification cannot be an empty string")).
Proof.
  split.
  - split; [reflexivity|]. split; [reflexivity|]. split; [reflexivity|].
    exact (proj1
             (empty_type_or_classification_refused (md5 := sample_md5)
                sample_db "alice" "T1" empty_type_patch 1000 hello_row
                eq_refl (or_introl eq_refl))
             eq_refl).
  - split; [discriminate|]. split; [reflexivity|].
    exact (proj2
             (empty_type_or_classification_refused (md5 := sample_md5)
                sample_db "alice" "T1" empty_classification_patch 1000
                hello_row eq_refl (or_introl eq_refl))
             ltac:(discriminate) eq_refl).
Defined.

Lemma UpdateObligation_unknown_user_witness :
  First_Obligation sample_db "T1" = Some hello_row
  /\ First_User sample_db "bob" = None
  /\ exists err,
       UpdateObligation (md5 := sample_md5) sample_db "bob" "T1"
         (inr red_patch) 1000
       = (sample_db, failed_to_update err).
Proof.
  split; [reflexivity|]. split; [reflexivity|].
  exact (UpdateObligation_unknown_user (md5 := sample_md5) sample_db "bob"
           "T1" red_patch 1000 hello_row
           (<["classification" := VString "red"]> ∅)
           eq_refl eq_refl eq_refl).
Defined.

Lemma UpdateObligation_applies_provided_fields_witness :
  (exists d' new,
     NoDup (map Obligation.Id (obligations sample_db))
     /\ First_Obligation sample_db "T1" = Some hello_row
     /\ UpdateObligation (md5 := sample_md5) sample_db "alice" "T1"
          (inr three_fields_patch) 1000
        = (d', ok_response StatusOK new)
     /\ sets_a_column hello_row three_fields_patch = true
     /\ new = patched (md5 := sample_md5) hello_row three_fields_patch
                hello_row
     /\ Obligation.Type_ new = "risk"
     /\ Obligation.Text new = "hello")
  /\ (exists d' new,
        UpdateObligation (md5 := sample_md5) sample_db "alice" "T1"
          (inr empty_text_patch) 1000
        = (d', ok_response StatusOK new)
        /\ sets_a_column hello_row empty_text_patch = false
        /\ new = Obligation.set_Id Obligation.zero_value 1
        /\ obligations d' = obligations sample_db).
Proof.
  split.
  - eexists. eexists.
    split; [exact (proj1 sample_db_consistent)|].
    split; [reflexivity|]. split; [reflexivity|]. split; [reflexivity|].
    split; [|split; reflexivity].
    exact (proj1 (proj2 (proj2
             (UpdateObligation_applies_provided_fields (md5 := sample_md5)
                sample_db "alice" "T1" three_fields_patch 1000 hello_row _ _
                (proj1 sample_db_consistent) eq_refl eq_refl)))).
  - eexists. eexists. split; [reflexivity|]. split; [reflexivity|].
    exact (proj2 (proj2
             (UpdateObligation_applies_provided_fields (md5 := sample_md5)
                sample_db "alice" "T1" empty_text_patch 1000 hello_row _ _
                (proj1 sample_db_consistent) eq_refl eq_refl))).
Defined.

Lemma UpdateObligation_keeps_db_consistent_witness :
  db_consistent sample_db
  /\ db_consistent
       (fst (UpdateObligation (md5 := sample_md5) sample_db "alice" "T1"
               (inr three_fields_patch) 1000)).
Proof.
  split; [exact sample_db_consistent|].
  exact (UpdateObligation_keeps_db_consistent (md5 := sample_md5) sample_db
           "alice" "T1" (inr three_fields_patch) 1000 sample_db_consistent).
Defined.

(** ** The digest of the text *)

Section Digest.
Context {md5 : MD5}.

(** X19. The stored digest always is the digest of the stored text: if
    that holds for every row, it holds after [CreateObligation], after
    [UpdateObligation] and after [DeleteObligation], whatever the request
    and its outcome. *)
Theorem digest_stays_consistent d :
  digest_consistent d ->
  (forall body, digest_consistent (fst (CreateObligation d body)))
  /\ (forall username tp body now,
        digest_consistent (fst (UpdateObligation d username tp body now)))
  /\ (forall tp, digest_consistent (fst (DeleteObligation d tp))).
Proof.
  unfold digest_consistent. intros Hall. split; [|split].
  - intros [err|input]; [exact Hall|].
    rewrite CreateObligation_run.
    destruct (List.find _ (obligations d)); [exact Hall|].
    destruct (existsb _ (obligations d)); [exact Hall|].
    cbn [fst].
    destruct (create_links_frame
                (set_obligations d
                   (append (obligations d) (created_row d input)))
                (created_row d input)
                (ObligationPOSTRequestJSONSchema.Shortnames input))
      as (-> & _).
    cbn [obligations set_obligations]. unfold append.
    apply Forall_app. split; [exact Hall|].
    repeat constructor.
  - intros username tp body now.
    destruct (UpdateObligation_database d username tp body now)
      as [->|(old & updates & rows & _ & _ & Hrows & Hd')];
      [exact Hall|].
    assert (Hnew : Forall (fun o => Obligation.Md5 o
                                    = md5_hex (Obligation.Text o)) rows).
    { subst rows. rewrite Forall_forall in Hall.
      apply Forall_forall. intros x Hx. apply list_elem_of_In in Hx.
      apply in_map_iff in Hx as (o & <- & Ho).
      apply list_elem_of_In in Ho. specialize (Hall o Ho).
      destruct (has_Id _ o); [|exact Hall].
      unfold patched. cbn [Obligation.Md5 Obligation.Text].
      destruct (text_accepted old updates); [reflexivity|exact Hall]. }
    destruct Hd' as [->|[a ->]]; exact Hnew.
  - intros tp.
    destruct (First_Obligation d tp) as [old|] eqn:Hold.
    2:{ unfold DeleteObligation. rewrite Hold. exact Hall. }
    rewrite (DeleteObligation_known _ _ _ Hold).
    cbn [fst obligations set_obligations].
    destruct (First_Obligation_In _ _ _ Hold) as [Hin _].
    rewrite Forall_forall in Hall.
    apply Forall_forall. intros x Hx. apply list_elem_of_In in Hx.
    apply in_map_iff in Hx as (o & <- & Ho).
    destruct (has_Id _ o && cond_string tp _).
    + apply list_elem_of_In in Hin. exact (Hall old Hin).
    + apply list_elem_of_In in Ho. exact (Hall o Ho).
Qed.

End Digest.

Lemma digest_stays_consistent_witness :
  digest_consistent (md5 := sample_md5) notices_db
  /\ digest_consistent (md5 := sample_md5)
       (fst (CreateObligation (md5 := sample_md5) notices_db
               (inr fresh_request)))
  /\ digest_consistent (md5 := sample_md5)
       (fst (DeleteObligation notices_db "T1")).
Proof.
  assert (H : digest_consistent (md5 := sample_md5) notices_db)
    by (repeat constructor).
  split; [exact H|].
  split.
  - exact (proj1 (digest_stays_consistent (md5 := sample_md5) notices_db H)
             (inr fresh_request)).
  - exact (proj2 (proj2 (digest_stays_consistent (md5 := sample_md5)
                           notices_db H)) "T1").
Defined.

(** ** The handlers that only read *)

Lemma find_map_same_test {A : Type} (p : A -> bool) (f : A -> A)
    (l : list A) :
  (forall x, p (f x) = p x) ->
  List.find p (map f l) = option_map f (List.find p l).
Proof.
  intros Hp. induction l as [|x l IH]; [reflexivity|].
  cbn [map List.find]. rewrite Hp.
  destruct (p x); [reflexivity|exact IH].
Qed.

Section Reading.
Context {md5 : MD5}.
Variable paginate : forall A : Type, list A -> list A.

(** X20. [GetAllObligation] treats a missing [active] parameter as "true",
    answers 400 when the parameter is not one of the spellings
    [strconv.ParseBool] accepts, and otherwise answers 200 (also for an
    empty result) with stored rows whose flag [Active] is the one asked
    for, counted in [ResourceCount]; the pagination only selects among the
    matching rows. *)
Theorem GetAllObligation_filters_by_active d active :
  selects paginate ->
  GetAllObligation paginate d "" = GetAllObligation paginate d "true"
  /\ match ParseBool (if String.eqb active "" then "true" else active) with
     | None =>
         status_of (GetAllObligation paginate d active)
         = Some StatusBadRequest
     | Some parsedActive =>
         exists rows,
           GetAllObligation paginate d active
           = JSON_ObligationResponse StatusOK
               {| ObligationResponse.Status := StatusOK;
                  ObligationResponse.Data := rows;
                  ObligationResponse.ResourceCount :=
                    Z.of_nat (length rows) |}
           /\ Forall (fun o => Obligation.Active o = parsedActive
                               /\ In o (obligations d)) rows
     end.
Proof.
  intros Hsel. split; [reflexivity|].
  unfold GetAllObligation. cbv zeta.
  destruct (ParseBool _) as [parsedActive|]; [|reflexivity].
  unfold Find_Obligations. eexists. split; [reflexivity|].
  apply Forall_forall. intros o Ho. apply list_elem_of_In in Ho.
  apply Hsel in Ho. apply filter_In in Ho as [Hin Hflag].
  split; [|exact Hin]. apply Bool.eqb_prop. exact Hflag.
Qed.

(** X21. [GetObligationAudits] of a known topic answers 200 with audit
    records that all belong to that obligation: each is a stored record
    whose subject is the primary key of the row and whose subject type is
    "Obligation". *)
Theorem GetObligationAudits_only_own d topic o :
  selects paginate ->
  First_Obligation d topic = Some o ->
  Obligation.Id o <> 0 ->
  exists records,
    GetObligationAudits paginate d topic
    = Audits_AuditResponse StatusOK
        {| AuditResponse.Status := StatusOK;
           AuditResponse.Data := records;
           AuditResponse.ResourceCount := Z.of_nat (length records) |}
    /\ Forall (fun a => Audit.TypeId a = Obligation.Id o
                        /\ Audit.Type_ a = "Obligation"
                        /\ In a (audits d)) records.
Proof.
  intros Hsel Ho Hid.
  unfold GetObligationAudits, First_Obligation_Id. rewrite Ho.
  unfold Find_Audits. cbn [Obligation.Id Obligation.set_Id].
  eexists. split; [reflexivity|].
  apply Forall_forall. intros a Ha. apply list_elem_of_In in Ha.
  apply Hsel in Ha. apply filter_In in Ha as [Hin Hw].
  unfold where_Audit in Hw. apply Z.eqb_neq in Hid. rewrite Hid in Hw.
  apply andb_prop in Hw as [Hw1 Hw2].
  apply Z.eqb_eq in Hw1. unfold cond_string in Hw2. cbn in Hw2.
  apply String.eqb_eq in Hw2. repeat split; assumption.
Qed.

(** X22. An update shows in the audit listing: after a successful update
    that changed a tracked field, the records [GetObligationAudits] pages
    through for that topic are the records it paged through before,
    followed by one new record that carries the change log of the update,
    the acting user's time stamp and the primary key of the row. *)
Theorem audit_listing_after_update d username tp updates now old d' new :
  First_Obligation d tp = Some old ->
  UpdateObligation d username tp (inr updates) now
    = (d', ok_response StatusOK new) ->
  changes_of old new <> [] ->
  exists a,
    Audit.ChangeLogs a = changes_of old new
    /\ Audit.TypeId a = Obligation.Id old
    /\ Audit.Timestamp a = now
    /\ GetObligationAudits paginate d' tp
       = Audits_AuditResponse StatusOK
           {| AuditResponse.Status := StatusOK;
              AuditResponse.Data :=
                paginate _
                  (List.filter (where_Audit (Obligation.Id old) "Obligation")
                     (audits d) ++ [a])%list;
              AuditResponse.ResourceCount :=
                Z.of_nat
                  (length
                     (paginate _
                        (List.filter
                           (where_Audit (Obligation.Id old) "Obligation")
                           (audits d) ++ [a])%list)) |}.
Proof.
  intros Hold Hrun Hchanged.
  destruct (UpdateObligation_ok _ _ _ _ _ _ _ _ Hold Hrun)
    as (m & r & user & _ & _ & Hr & Hnew & Hrows & _ & Haudits).
  destruct (Nat.eqb (length (changes_of old new)) 0) eqn:Hlen.
  { apply length_zero_nil in Hlen. contradiction. }
  cbn [negb] in Haudits.
  assert (Hid : Obligation.Id new = Obligation.Id old).
  { subst new. destruct (Nat.eqb (size m) 0); [reflexivity|].
    rewrite Id_patched.
    apply find_some in Hr as [_ Hr]. unfold has_Id in Hr.
    apply Z.eqb_eq. exact Hr. }
  exists {| Audit.UserId := User.Id user;
            Audit.TypeId := Obligation.Id new;
            Audit.Timestamp := now;
            Audit.Type_ := "Obligation";
            Audit.ChangeLogs := changes_of old new |}.
  split; [reflexivity|]. split; [exact Hid|].
  split; [reflexivity|].
  assert (Hfirst :
    First_Obligation d' tp
    = Some (if has_Id (Obligation.Id old) old
            then patched old updates old else old)).
  { unfold First_Obligation. rewrite Hrows.
    rewrite (find_map_same_test
               (fun o => cond_string tp (Obligation.Topic o))).
    - unfold First_Obligation in Hold. rewrite Hold. reflexivity.
    - intros o. destruct (has_Id _ o); reflexivity. }
  unfold GetObligationAudits, First_Obligation_Id. rewrite Hfirst.
  unfold Find_Audits. cbn [Obligation.Id Obligation.set_Id].
  replace (Obligation.Id
             (if has_Id (Obligation.Id old) old
              then patched old updates old else old))
    with (Obligation.Id old)
    by (destruct (has_Id _ old); reflexivity).
  rewrite Haudits. unfold append. rewrite List.filter_app.
  cbn [List.filter].
  match goal with
  | |- context [where_Audit ?i ?t ?a] =>
      assert (Hw : where_Audit i t a = true)
  end.
  { unfold where_Audit. cbn [Audit.TypeId Audit.Type_].
    rewrite Hid, Z.eqb_refl.
    destruct (Z.eqb (Obligation.Id old) 0); reflexivity. }
  rewrite Hw. reflexivity.
Qed.

End Reading.

Lemma first_two_selects : selects first_two.
Proof.
  intros A l x Hin. unfold first_two in Hin.
  rewrite <- (firstn_skipn 2 l). apply in_or_app. left. exact Hin.
Qed.

Lemma GetAllObligation_filters_by_active_witness :
  selects first_two
  /\ ParseBool "T" = Some true
  /\ exists rows,
       GetAllObligation first_two sample_db "T"
       = JSON_ObligationResponse StatusOK
           {| ObligationResponse.Status := StatusOK;
              ObligationResponse.Data := rows;
              ObligationResponse.ResourceCount := Z.of_nat (length rows) |}
       /\ Forall (fun o => Obligation.Active o = true
                           /\ In o (obligations sample_db)) rows.
Proof.
  split; [exact first_two_selects|]. split; [reflexivity|].
  exact (proj2 (GetAllObligation_filters_by_active first_two sample_db "T"
                  first_two_selects)).
Defined.

Lemma GetObligationAudits_only_own_witness :
  selects first_two
  /\ First_Obligation sample_db "T1" = Some hello_row
  /\ Obligation.Id hello_row <> 0
  /\ exists records,
       GetObligationAudits first_two sample_db "T1"
       = Audits_AuditResponse StatusOK
           {| AuditResponse.Status := StatusOK;
              AuditResponse.Data := records;
              AuditResponse.ResourceCount := Z.of_nat (length records) |}
       /\ Forall (fun a => Audit.TypeId a = Obligation.Id hello_row
                           /\ Audit.Type_ a = "Obligation"
                           /\ In a (audits sample_db)) records.
Proof.
  split; [exact first_two_selects|]. split; [reflexivity|].
  split; [discriminate|].
  exact (GetObligationAudits_only_own first_two sample_db "T1" hello_row
           first_two_selects eq_refl ltac:(discriminate)).
Defined.

Lemma audit_listing_after_update_witness :
  exists d' new,
    First_Obligation sample_db "T1" = Some hello_row
    /\ UpdateObligation (md5 := sample_md5) sample_db "alice" "T1"
         (inr three_fields_patch) 1000
       = (d', ok_response StatusOK new)
    /\ changes_of hello_row new <> []
    /\ exists a,
         GetObligationAudits first_two d' "T1"
         = Audits_AuditResponse StatusOK
             {| AuditResponse.Status := StatusOK;
                AuditResponse.Data := [a];
                AuditResponse.ResourceCount := 1 |}
         /\ Audit.ChangeLogs a = changes_of hello_row new.
Proof.
  eexists. eexists.
  split; [reflexivity|]. split; [reflexivity|].
  split; [discriminate|].
  pose proof
    (audit_listing_after_update (md5 := sample_md5) first_two sample_db
       "alice" "T1" three_fields_patch 1000 hello_row _ _ eq_refl eq_refl
       ltac:(discriminate)) as (a & Hlog & _ & _ & Hlist).
  exists a. split; [exact Hlist|exact Hlog].
Defined.

(** ** An unknown topic *)

Section UnknownTopic.
Context {md5 : MD5}.
Variable paginate : forall A : Type, list A -> list A.

(** X23. A non-empty topic that no stored row has is answered 404
    "obligation with topic '...' not found" by every handler that is
    addressed by a topic, and the update and the deactivation leave the
    database as it was. *)
Theorem unknown_topic_is_404 d username tp body now :
  tp <> "" ->
  Forall (fun o => Obligation.Topic o <> tp) (obligations d) ->
  GetObligation d tp = not_found tp
  /\ UpdateObligation d username tp body now = (d, not_found tp)
  /\ DeleteObligation d tp = (d, not_found tp)
  /\ GetObligationAudits paginate d tp
     = Audits_LicenseError StatusNotFound
         {| LicenseError.Status := StatusNotFound;
            LicenseError.Message :=
              "obligation with topic '" ++ tp ++ "' not found";
            LicenseError.Error := ErrRecordNotFound |}.
Proof.
  intros Htp Hall.
  pose proof (First_Obligation_unknown d tp Htp Hall) as Hnone.
  unfold GetObligation, UpdateObligation, Transaction, UpdateObligation_tx,
    DeleteObligation, GetObligationAudits, First_Obligation_Id.
  rewrite Hnone. repeat split.
Qed.

End UnknownTopic.

Lemma unknown_topic_is_404_witness :
  "T9" <> ""
  /\ Forall (fun o => Obligation.Topic o <> "T9") (obligations sample_db)
  /\ UpdateObligation (md5 := sample_md5) sample_db "alice" "T9"
       (inr red_patch) 1000
     = (sample_db, not_found "T9")
  /\ DeleteObligation sample_db "T9" = (sample_db, not_found "T9").
Proof.
  assert (H1 : "T9" <> "") by discriminate.
  assert (H2 : Forall (fun o => Obligation.Topic o <> "T9")
                 (obligations sample_db))
    by (repeat constructor; discriminate).
  split; [exact H1|]. split; [exact H2|].
  pose proof (unknown_topic_is_404 (md5 := sample_md5) first_two sample_db
                "alice" "T9" (inr red_patch) 1000 H1 H2)
    as (_ & Hupdate & Hdelete & _).
  split; [exact Hupdate|exact Hdelete].
Defined.

(** ** More on the change log *)

Lemma differs_sym old new f : differs new old f = differs old new f.
Proof.
  destruct f; cbn [differs]; unfold NullString.eqb; f_equal;
    rewrite ?(String.eqb_sym (Obligation.Topic new)),
            ?(String.eqb_sym (Obligation.Type_ new)),
            ?(String.eqb_sym (Obligation.Text new)),
            ?(String.eqb_sym (Obligation.Classification new)),
            ?(String.eqb_sym (NullString.String (Obligation.Comment new)));
    try reflexivity.
  - destruct (Obligation.Modifications new), (Obligation.Modifications old);
      reflexivity.
  - f_equal.
    destruct (NullString.Valid (Obligation.Comment new)),
             (NullString.Valid (Obligation.Comment old)); reflexivity.
  - destruct (Obligation.Active new), (Obligation.Active old); reflexivity.
  - destruct (Obligation.TextUpdatable new), (Obligation.TextUpdatable old);
      reflexivity.
Qed.

(** X24. The change log of an update and the change log of the update
    that reverts it mirror each other: the same fields in the same order,
    each entry with its prior and its new value exchanged. *)
Theorem changes_of_reverted old new :
  changes_of new old = map mirrored (changes_of old new).
Proof.
  rewrite !changes_of_logged, map_map.
  rewrite (List.filter_ext _ _ (differs_sym old new)).
  apply map_ext. intros f. destruct f; reflexivity.
Qed.

Lemma NoDup_map_filter {A B : Type} (g : A -> B) (p : A -> bool)
    (l : list A) :
  NoDup (map g l) -> NoDup (map g (List.filter p l)).
Proof.
  induction l as [|x l IH]; cbn [map List.filter]; [intros H; exact H|].
  intros Hnd. inversion Hnd as [|y k Hnotin Hnd' E]; subst y k.
  destruct (p x); [|exact (IH Hnd')].
  cbn [map]. constructor; [|exact (IH Hnd')].
  intros Hin. apply Hnotin.
  apply list_elem_of_In in Hin. apply list_elem_of_In.
  apply in_map_iff in Hin as (z & Hz & Hzin).
  apply filter_In in Hzin as [Hzin _].
  apply in_map_iff. exists z. split; assumption.
Qed.

(** X25. No field is logged twice: the field names of a change log are
    pairwise different, so a change log has at most eight entries. *)
Theorem changes_of_names_distinct old new :
  NoDup (map ChangeLog.Field (changes_of old new))
  /\ (length (changes_of old new) <= 8)%nat.
Proof.
  split.
  - rewrite changes_of_fields. apply NoDup_map_filter.
    unfold tracked_fields. cbn [map field_name].
    repeat (constructor;
            [rewrite ?not_elem_of_cons; repeat split;
             try discriminate; apply not_elem_of_nil|]).
    constructor.
  - rewrite changes_of_logged, length_map.
    pose proof (List.filter_length_le (differs old new) tracked_fields) as H.
    exact H.
Qed.

Lemma changes_of_rendered_witness :
  FActive <> FClassification
  /\ differs hello_row (Obligation.set_Active hello_row false) FActive = true
  /\ In {| ChangeLog.Field := "Active";
           ChangeLog.OldValue := Some "true";
           ChangeLog.UpdatedValue := Some "false" |}
        (changes_of hello_row (Obligation.set_Active hello_row false)).
Proof.
  split; [discriminate|]. split; [reflexivity|].
  exact (changes_of_rendered hello_row (Obligation.set_Active hello_row false)
           FActive ltac:(discriminate) eq_refl).
Defined.

Lemma changes_of_classification_witness :
  differs hello_row
    (returned_row
       (snd (UpdateObligation (md5 := sample_md5) sample_db "alice" "T1"
               (inr red_patch) 1000)))
    FClassification = true
  /\ In {| ChangeLog.Field := "Classification";
           ChangeLog.OldValue := Some "false";
           ChangeLog.UpdatedValue := Some "false" |}
        (changes_of hello_row
           (returned_row
              (snd (UpdateObligation (md5 := sample_md5) sample_db "alice"
                      "T1" (inr red_patch) 1000)))).
Proof.
  split; [reflexivity|].
  exact (changes_of_classification hello_row
           (returned_row
              (snd (UpdateObligation (md5 := sample_md5) sample_db "alice"
                      "T1" (inr red_patch) 1000)))
           eq_refl).
Defined.
